(** * Restaurant voice agent: intent classifier, reply generator,
      call sessions and webhook handlers.

    Shallow embedding of [ai_agent.py], [twilio_integration.py] and the
    call handling of [app.py].  Python [str] values are Rocq strings, the
    [sessions] dictionary is a [gmap], the mutable [CallSession] objects
    are records threaded through the handlers and written back to the
    registry, and a Python exception is the [Raise] constructor of
    [Result].  The two builtins whose full behaviour is outside the
    program, [str.lower] and [float], are parameters of the definitions
    that call them; [ascii_lower] and [decimal_float] instantiate them
    for concrete runs.  Logging is left out except for the summary the
    status webhook logs.  [text_to_speech] and [speech_to_text], which no
    handler calls, are modelled over a record of the outside services
    they use, with the trace of what they do to them. *)

From Stdlib Require Import Strings.String Strings.Ascii NArith ZArith QArith Lia.
From stdpp Require Import base option list gmap strings.

Local Open Scope string_scope.

(** ** Python runtime pieces used by the program *)

(** [needle in haystack] on [str]: [needle] occurs at some offset. *)
Fixpoint contains (needle haystack : string) : bool :=
  if String.prefix needle haystack then true
  else match haystack with
       | EmptyString => false
       | String _ rest => contains needle rest
       end.

(** [sep.join(parts)]. *)
Definition join (sep : string) (parts : list string) : string :=
  String.concat sep parts.

(** An ASCII instance of [str.lower()], used to run the model on concrete
    English utterances.  The development itself is parametric in the
    lower-casing function, so every theorem also covers Python's full
    Unicode [str.lower()]. *)
Definition lower_char (c : ascii) : ascii :=
  let n := N_of_ascii c in
  if ((65 <=? n) && (n <=? 90))%N then ascii_of_N (n + 32) else c.

Fixpoint ascii_lower (s : string) : string :=
  match s with
  | EmptyString => EmptyString
  | String c rest => String (lower_char c) (ascii_lower rest)
  end.

(** Python exceptions.  [Raise] is an exception leaving the function. *)
Inductive Exn : Type :=
  | ValueError (msg : string)
  | RuntimeError (msg : string).

Inductive Result (A : Type) : Type :=
  | Ok (a : A)
  | Raise (e : Exn).
Arguments Ok {A} a.
Arguments Raise {A} e.

(** Python [float] values, as far as the program looks at them: it only
    compares one with [0.5].  A finite float is the rational it denotes. *)
Inductive pyfloat : Type :=
  | Fnan
  | Finf (negative : bool)
  | Ffinite (q : Q).

(** [x < y] on floats; every comparison with a NaN is false. *)
Definition float_lt (x y : pyfloat) : bool :=
  match x, y with
  | Ffinite a, Ffinite b => negb (Qle_bool b a)
  | Ffinite _, Finf negative => negb negative
  | Finf negative, Ffinite _ => negative
  | Finf negative1, Finf negative2 => negative1 && negb negative2
  | Fnan, _ | _, Fnan => false
  end.

(** [x <= y] on floats. *)
Definition float_le (x y : pyfloat) : bool :=
  match x, y with
  | Ffinite a, Ffinite b => Qle_bool a b
  | Ffinite _, Finf negative => negb negative
  | Finf negative, Ffinite _ => negative
  | Finf negative1, Finf negative2 => negative1 || negb negative2
  | Fnan, _ | _, Fnan => false
  end.

(** The literal [0.5]. *)
Definition half : pyfloat := Ffinite (1 # 2).

(** A decimal instance of [float(str)], used to run the model on concrete
    requests.  It reads [digits], [digits.digits], [digits.] and [.digits]
    with at most fifteen digits, where the rational read and the float
    Python rounds it to compare with [0.5] alike.  On every other string
    it raises [ValueError], as [float] does on the malformed fields of the
    runs below.  The development itself is parametric in [float]. *)
Definition digit_value (c : ascii) : option N :=
  let n := N_of_ascii c in
  if ((48 <=? n) && (n <=? 57))%N then Some (n - 48)%N else None.

Fixpoint read_decimal (s : string) (seen_dot : bool) (num : N)
    (digits frac : nat) : option (N * nat * nat) :=
  match s with
  | EmptyString => Some (num, digits, frac)
  | String c rest =>
      if Ascii.eqb c "." then
        if seen_dot then None else read_decimal rest true num digits frac
      else
        match digit_value c with
        | Some d =>
            read_decimal rest seen_dot (10 * num + d)%N (S digits)
                         (if seen_dot then S frac else frac)
        | None => None
        end
  end.

Definition decimal_float (s : string) : Result pyfloat :=
  let error :=
    ValueError ("could not convert string to float: '" ++ s ++ "'") in
  match read_decimal s false 0%N 0 0 with
  | Some (num, S d, frac) =>
      if (S d <=? 15)%nat
      then Ok (Ffinite (Z.of_N num # Z.to_pos (10 ^ Z.of_nat frac)))
      else Raise error
  | _ => Raise error
  end.

(** ** ai_agent.py *)

(** The intent tags: the ten keys of [intent_keywords] and the default
    ["general_inquiry"]. *)
Inductive Intent : Type :=
  | greeting
  | hours_inquiry
  | location_inquiry
  | menu_inquiry
  | order_request
  | reservation_request
  | complaint
  | delivery_inquiry
  | closing
  | contact_staff
  | general_inquiry.

#[global] Instance Intent_eq_dec : EqDecision Intent.
Proof. solve_decision. Defined.

(** The tag as the program writes it. *)
Definition intent_name (i : Intent) : string :=
  match i with
  | greeting => "greeting"
  | hours_inquiry => "hours_inquiry"
  | location_inquiry => "location_inquiry"
  | menu_inquiry => "menu_inquiry"
  | order_request => "order_request"
  | reservation_request => "reservation_request"
  | complaint => "complaint"
  | delivery_inquiry => "delivery_inquiry"
  | closing => "closing"
  | contact_staff => "contact_staff"
  | general_inquiry => "general_inquiry"
  end.

(** [self.restaurant_info], read from the environment at start-up. *)
Record RestaurantInfo : Type := {
  name : string;
  address : string;
  hours : string;
  menu_categories : list string;
  delivery_policy : string;
  phone : string
}.

(** The dictionary returned by [analyze_intent]. *)
Record IntentAnalysis : Type := {
  primary_intent : Intent;
  all_detected_intents : list Intent;
  escalation_needed : bool
}.

(** One entry of a conversation history: [{"role": ..., "content": ...}]. *)
Record Turn : Type := {
  role : string;
  content : string
}.

(** [intent_keywords], in the insertion order of the dictionary literal,
    which is the order [.items()] iterates in. *)
Definition intent_keywords : list (Intent * list string) :=
  [ (greeting, ["hello"; "hi"; "hey"; "good morning"; "good afternoon"; "good evening"]);
    (hours_inquiry, ["open"; "close"; "hours"; "time"; "when"; "what time"; "what are your hours"]);
    (location_inquiry, ["where"; "address"; "location"; "find"; "direction"; "located"]);
    (menu_inquiry, ["menu"; "food"; "what do you"; "what's on"; "offer"; "have"]);
    (order_request, ["order"; "place"; "buy"; "get"; "delivery"; "takeout"; "take out"]);
    (reservation_request, ["reservation"; "book"; "table"; "seat"; "reserve"]);
    (complaint, ["problem"; "issue"; "wrong"; "not"; "complaint"; "angry"; "upset"; "terrible"; "bad"]);
    (delivery_inquiry, ["delivery"; "takeout"; "take out"; "pickup"; "pick up"; "carryout"]);
    (closing, ["bye"; "goodbye"; "thanks"; "thank you"; "that's all"; "see you"; "later"]);
    (contact_staff, ["speak"; "talk"; "manager"; "human"; "staff"; "person"; "someone"]) ].

Definition escalation_intents : list Intent :=
  [order_request; reservation_request; complaint; contact_staff].

(** Body of the inner loop: one keyword of one intent. *)
Definition scan_keyword (message_lower : string) (intent : Intent)
    (detected_intents : list Intent) (keyword : string) : list Intent :=
  if contains keyword message_lower then
    if bool_decide (intent ∈ detected_intents) then detected_intents
    else detected_intents ++ [intent]
  else detected_intents.

(** The inner [for keyword in keywords] loop. *)
Definition scan_intent (message_lower : string) (detected_intents : list Intent)
    (entry : Intent * list string) : list Intent :=
  fold_left (scan_keyword message_lower entry.1) entry.2 detected_intents.

(** The outer [for intent, keywords in intent_keywords.items()] loop,
    started from the empty list. *)
Definition detect_intents (message_lower : string) : list Intent :=
  fold_left (scan_intent message_lower) intent_keywords [].

Section Agent.
(** [str.lower()]. *)
Variable lower : string -> string.
Variable restaurant_info : RestaurantInfo.

Definition analyze_intent (user_message : string) : IntentAnalysis :=
  let message_lower := lower user_message in
  let detected_intents := detect_intents message_lower in
  let detected_intents :=
    match detected_intents with
    | [] => [general_inquiry]
    | _ => detected_intents
    end in
  let primary_intent :=
    match detected_intents with
    | i :: _ => i
    | [] => general_inquiry
    end in
  let escalation_needed :=
    existsb (fun intent => bool_decide (intent ∈ escalation_intents))
            detected_intents in
  {| primary_intent := primary_intent;
     all_detected_intents := detected_intents;
     escalation_needed := escalation_needed |}.

(** The five sentences of [_generate_mock_response]. *)
Definition mock_hours_sentence : string :=
  "We are " ++ lower (hours restaurant_info) ++ ".".
Definition mock_address_sentence : string :=
  "We are located at " ++ address restaurant_info ++ ".".
Definition mock_menu_sentence : string :=
  "We offer " ++ join ", " (menu_categories restaurant_info) ++ ".".
Definition mock_order_sentence : string :=
  "I'd be happy to connect you with our staff who can help you place your order.".
Definition mock_default_sentence : string :=
  "Thank you for calling " ++ name restaurant_info ++ ". We are "
    ++ lower (hours restaurant_info) ++ ".".

Definition _generate_mock_response (user_message : string)
    (primary_intent : Intent) : string :=
  if contains "open" (lower user_message) || contains "hour" (lower user_message)
  then mock_hours_sentence
  else if contains "where" (lower user_message)
          || contains "address" (lower user_message)
  then mock_address_sentence
  else if contains "menu" (lower user_message)
          || contains "food" (lower user_message)
  then mock_menu_sentence
  else if contains "order" (lower user_message)
          || contains "delivery" (lower user_message)
  then mock_order_sentence
  else mock_default_sentence.

Definition generate_response (user_message : string)
    (conversation_history : list Turn)
    (intent_analysis : option IntentAnalysis) : string :=
  let intent_analysis :=
    match intent_analysis with
    | None => analyze_intent user_message
    | Some a => a
    end in
  let primary_intent := primary_intent intent_analysis in
  match primary_intent with
  | greeting =>
      "Hello! Thank you for calling " ++ name restaurant_info
        ++ ". How can I assist you today?"
  | hours_inquiry => "We are " ++ lower (hours restaurant_info) ++ "."
  | location_inquiry => "We are located at " ++ address restaurant_info ++ "."
  | menu_inquiry =>
      let categories := join ", " (menu_categories restaurant_info) in
      "We offer " ++ categories ++ ". For more details, please speak with our staff."
  | order_request | reservation_request | complaint =>
      "I'd be happy to connect you with our staff who can help you with that."
  | delivery_inquiry => delivery_policy restaurant_info ++ "."
  | closing =>
      "Thank you for calling " ++ name restaurant_info ++ ". Have a great day!"
  | contact_staff => "I'll connect you with our staff who can better assist you."
  | general_inquiry => _generate_mock_response user_message primary_intent
  end.

Definition needs_escalation (user_message : string)
    (conversation_history : list Turn)
    (intent_analysis : option IntentAnalysis) : bool :=
  let intent_analysis :=
    match intent_analysis with
    | None => analyze_intent user_message
    | Some a => a
    end in
  escalation_needed intent_analysis.
End Agent.
Arguments analyze_intent : simpl never.
Arguments generate_response : simpl never.


(** The interface [app.py] uses of its [ai_agent] object.  Each call may
    raise, which is what the [try]/[except] of [get_ai_response] guards
    against. *)
Record AgentOps : Type := {
  agent_analyze_intent : string -> Result IntentAnalysis;
  agent_generate_response :
    string -> list Turn -> option IntentAnalysis -> Result string;
  agent_needs_escalation :
    string -> list Turn -> option IntentAnalysis -> Result bool
}.

(** [RestaurantAIAgent()]: none of its three methods raises. *)
Definition RestaurantAIAgent (lower : string -> string)
    (restaurant_info : RestaurantInfo) : AgentOps :=
  {| agent_analyze_intent := fun m => Ok (analyze_intent lower m);
     agent_generate_response :=
       fun m h a => Ok (generate_response lower restaurant_info m h a);
     agent_needs_escalation := fun m h a => Ok (needs_escalation lower m h a) |}.

(** ** twilio_integration.py *)

(** The TwiML verbs the handler emits.  Every [gather] of the program has
    the same attributes apart from [action] (speech input, POST, timeout
    40, speech timeout 10, profanity filter on). *)
Inductive Verb : Type :=
  | Say (message : string)
  | Gather (action : string)
  | Dial (caller_id : option string) (number : string)
  | Hangup.

(** [d.get(key, default)] on the string dictionaries of the program:
    keyword arguments, form fields and [caller_info]. *)
Definition dict_get (d : gmap string string) (key default : string) : string :=
  match d !! key with
  | Some v => v
  | None => default
  end.

Section TwilioHandler.
(** [self.twilio_phone = os.getenv("TWILIO_PHONE_NUMBER")]. *)
Variable twilio_phone : option string.

Definition create_greeting_response (restaurant_name : string) : list Verb :=
  let greeting :=
    "Hello! Thank you for calling " ++ restaurant_name
      ++ ". How can I assist you today?" in
  [Say greeting; Gather "/api/webhook/twilio/speech"].

Definition create_speech_response (ai_response call_sid : string)
    : list Verb :=
  [Say ai_response; Gather ("/api/webhook/twilio/speech?call_sid=" ++ call_sid)].

Definition create_escalation_response (restaurant_phone : string)
    : list Verb :=
  [Say "I'll connect you with our staff who can better assist you.";
   Say "Transferring you to our staff now.";
   Dial twilio_phone restaurant_phone].

Definition create_error_response (error_message : string) : list Verb :=
  [Say error_message;
   Say "I'm experiencing technical difficulties. Please call back or visit us directly.";
   Hangup].

Definition create_unclear_response : list Verb :=
  [Say "I'm sorry, I couldn't hear that clearly. Could you please repeat?";
   Gather "/api/webhook/twilio/speech"].

Definition generate_twiml_response (response_type : string)
    (kwargs : gmap string string) : list Verb :=
  if String.eqb response_type "greeting" then
    create_greeting_response (dict_get kwargs "restaurant_name" "our restaurant")
  else if String.eqb response_type "speech_response" then
    create_speech_response (dict_get kwargs "ai_response" EmptyString)
                           (dict_get kwargs "call_sid" EmptyString)
  else if String.eqb response_type "escalation" then
    create_escalation_response (dict_get kwargs "restaurant_phone" EmptyString)
  else if String.eqb response_type "error" then
    create_error_response (dict_get kwargs "error_message" "An error occurred")
  else if String.eqb response_type "unclear" then
    create_unclear_response
  else [Say "How can I help you today?"].
End TwilioHandler.

(** ** app.py *)

(** The dictionary stored in [session.call_summary] on escalation. *)
Record CallSummary : Type := {
  summary_call_sid : string;
  summary_caller_phone : string;
  final_intent : string;
  conversation_length : nat;
  escalation_reason : string
}.

Module CallSession.
Record t : Type := {
  call_sid : string;
  conversation_history : list Turn;
  caller_info : gmap string string;
  escalation_needed : bool;
  call_summary : option CallSummary
}.

(** [CallSession(call_sid)]. *)
Definition init (call_sid : string) : t :=
  {| call_sid := call_sid;
     conversation_history := [];
     caller_info := ∅;
     escalation_needed := false;
     call_summary := None |}.

Definition add_message (role content : string) (self : t) : t :=
  {| call_sid := call_sid self;
     conversation_history :=
       conversation_history self ++ [{| role := role; content := content |}];
     caller_info := caller_info self;
     escalation_needed := escalation_needed self;
     call_summary := call_summary self |}.

Definition needs_escalation (self : t) : bool := escalation_needed self.

(** [session.escalation_needed = True]. *)
Definition mark_escalation (self : t) : t :=
  {| call_sid := call_sid self;
     conversation_history := conversation_history self;
     caller_info := caller_info self;
     escalation_needed := true;
     call_summary := call_summary self |}.

(** [session.caller_info[key] = value]. *)
Definition set_caller_info (key value : string) (self : t) : t :=
  {| call_sid := call_sid self;
     conversation_history := conversation_history self;
     caller_info := <[key := value]> (caller_info self);
     escalation_needed := escalation_needed self;
     call_summary := call_summary self |}.

(** [session.call_summary = summary]. *)
Definition set_call_summary (summary : CallSummary) (self : t) : t :=
  {| call_sid := call_sid self;
     conversation_history := conversation_history self;
     caller_info := caller_info self;
     escalation_needed := escalation_needed self;
     call_summary := Some summary |}.
End CallSession.

(** The summary dictionary logged by the status webhook. *)
Record FinalSummary : Type := {
  final_call_sid : string;
  final_caller_phone : string;
  call_status : string;
  final_conversation_length : nat;
  escalated : bool;
  summary : option CallSummary
}.

(** What a handler hands back to the web framework. *)
Inductive Response : Type :=
  | XmlResponse (twiml : list Verb)
  | PlainResponse (text : string).

(** [get_session]: the session of [call_sid], created and registered
    first when there is none.  Returns the session and the registry. *)
Definition get_session (call_sid : string)
    (sessions : gmap string CallSession.t)
    : CallSession.t * gmap string CallSession.t :=
  match sessions !! call_sid with
  | Some session => (session, sessions)
  | None =>
      let session := CallSession.init call_sid in
      (session, <[call_sid := session]> sessions)
  end.

(** Code that mutates one session object and may raise: the session is
    threaded through, and what was mutated before a raise stays mutated. *)
Definition SessionM (A : Type) : Type :=
  CallSession.t -> Result A * CallSession.t.

Definition ret {A} (a : A) : SessionM A := fun s => (Ok a, s).

Definition bind {A B} (m : SessionM A) (k : A -> SessionM B) : SessionM B :=
  fun s =>
    match m s with
    | (Ok a, s') => k a s'
    | (Raise e, s') => (Raise e, s')
    end.

Definition call {A} (r : Result A) : SessionM A := fun s => (r, s).

Definition read {A} (f : CallSession.t -> A) : SessionM A :=
  fun s => (Ok (f s), s).

Definition update (f : CallSession.t -> CallSession.t) : SessionM unit :=
  fun s => (Ok tt, f s).

(** [try: body except Exception as e: handler]. *)
Definition try_except {A} (body : SessionM A) (handler : Exn -> SessionM A)
    : SessionM A :=
  fun s =>
    match body s with
    | (Ok a, s') => (Ok a, s')
    | (Raise e, s') => handler e s'
    end.

Notation "'let*' x := m 'in' k" := (bind m (fun x => k))
  (at level 10, x name, m at level 100, k at level 200).

Definition apology : string :=
  "I apologize, but I'm experiencing technical difficulties. Let me connect you to our staff.".

(** The requests of the three POST endpoints, with their form fields. *)
Inductive Request : Type :=
  | VoiceRequest (form_data : gmap string string)
  | SpeechRequest (form_data : gmap string string)
  | StatusRequest (form_data : gmap string string).

Definition terminal_statuses : list string :=
  ["completed"; "busy"; "failed"; "no-answer"].

Section App.
(** The module-level [ai_agent], Python's [float] builtin on [str]
    (raising [ValueError] on a malformed literal), the handler's Twilio
    number and the module-level [RESTAURANT_INFO]. *)
Variable ai_agent : AgentOps.
Variable py_float : string -> Result pyfloat.
Variable twilio_phone : option string.
Variable RESTAURANT_INFO : RestaurantInfo.

Definition get_ai_response (user_message : string) : SessionM string :=
  try_except
    (let* intent_analysis := call (agent_analyze_intent ai_agent user_message) in
     let* history := read CallSession.conversation_history in
     let* ai_response :=
       call (agent_generate_response ai_agent user_message history
               (Some intent_analysis)) in
     let* _ := update (CallSession.add_message "user" user_message) in
     let* _ := update (CallSession.add_message "assistant" ai_response) in
     let* history := read CallSession.conversation_history in
     let* escalate :=
       call (agent_needs_escalation ai_agent user_message history
               (Some intent_analysis)) in
     let* _ :=
       if escalate : bool then update CallSession.mark_escalation
       else ret tt in
     ret ai_response)
    (fun e => ret apology).

(** The reply of the [except] branch of the voice webhook. *)
Definition voice_error_response : Response :=
  XmlResponse
    [Say "Sorry, there was an error processing your call. Please try again later."].

(** The [try] block of the voice webhook.  None of its statements raises
    on string form fields. *)
Definition voice_webhook_body (form_data : gmap string string)
    (sessions : gmap string CallSession.t)
    : Result Response * gmap string CallSession.t :=
  let call_sid := dict_get form_data "CallSid" EmptyString in
  let from_number := dict_get form_data "From" EmptyString in
  let '(session, sessions) := get_session call_sid sessions in
  let session := CallSession.set_caller_info "phone" from_number session in
  let twiml_response :=
    generate_twiml_response twilio_phone "greeting"
      {[ "restaurant_name" := name RESTAURANT_INFO ]} in
  (Ok (XmlResponse twiml_response), <[call_sid := session]> sessions).

Definition handle_twilio_voice_webhook (form_data : gmap string string)
    (sessions : gmap string CallSession.t)
    : Result Response * gmap string CallSession.t :=
  match voice_webhook_body form_data sessions with
  | (Ok response, sessions) => (Ok response, sessions)
  | (Raise e, sessions) => (Ok voice_error_response, sessions)
  end.

Definition escalation_summary (call_sid : string) (session : CallSession.t)
    : CallSummary :=
  {| summary_call_sid := call_sid;
     summary_caller_phone :=
       dict_get (CallSession.caller_info session) "phone" "Unknown";
     final_intent := "Escalated to human";
     conversation_length := length (CallSession.conversation_history session);
     escalation_reason := "Order/Reservation/Complaint detected" |}.

Definition handle_twilio_speech_webhook (form_data : gmap string string)
    (sessions : gmap string CallSession.t)
    : Result Response * gmap string CallSession.t :=
  let call_sid := dict_get form_data "CallSid" EmptyString in
  let speech_result := dict_get form_data "SpeechResult" EmptyString in
  let confidence := dict_get form_data "Confidence" "0.0" in
  let '(session, sessions) := get_session call_sid sessions in
  (* [not speech_result or float(confidence) < 0.5]: [float] is only
     called on a non-empty text *)
  let unusable : Result bool :=
    if String.eqb speech_result EmptyString then Ok true
    else match py_float confidence with
         | Ok c => Ok (float_lt c half)
         | Raise e => Raise e
         end in
  match unusable with
  | Raise e => (Raise e, sessions)
  | Ok true =>
      let twiml_response := generate_twiml_response twilio_phone "unclear" ∅ in
      (Ok (XmlResponse twiml_response), sessions)
  | Ok false =>
      let '(reply, session) := get_ai_response speech_result session in
      match reply with
      | Raise e => (Raise e, <[call_sid := session]> sessions)
      | Ok ai_response =>
          if CallSession.needs_escalation session then
            let twiml_response :=
              generate_twiml_response twilio_phone "escalation"
                {[ "restaurant_phone" := phone RESTAURANT_INFO ]} in
            let session :=
              CallSession.set_call_summary
                (escalation_summary call_sid session) session in
            (Ok (XmlResponse twiml_response), <[call_sid := session]> sessions)
          else
            let twiml_response :=
              generate_twiml_response twilio_phone "speech_response"
                (<[ "ai_response" := ai_response ]>
                   {[ "call_sid" := call_sid ]}) in
            (Ok (XmlResponse twiml_response), <[call_sid := session]> sessions)
      end
  end.

(** Returns the response, the summary it logged (if any) and the
    registry. *)
Definition handle_twilio_status_webhook (form_data : gmap string string)
    (sessions : gmap string CallSession.t)
    : Result Response * option FinalSummary * gmap string CallSession.t :=
  let call_sid := dict_get form_data "CallSid" EmptyString in
  let call_status := dict_get form_data "CallStatus" EmptyString in
  let from_number := dict_get form_data "From" EmptyString in
  if bool_decide (call_status ∈ terminal_statuses) then
    match sessions !! call_sid with
    | Some session =>
        let summary :=
          {| final_call_sid := call_sid;
             final_caller_phone := from_number;
             call_status := call_status;
             final_conversation_length :=
               length (CallSession.conversation_history session);
             escalated := CallSession.needs_escalation session;
             summary := CallSession.call_summary session |} in
        (Ok (PlainResponse "OK"), Some summary, delete call_sid sessions)
    | None => (Ok (PlainResponse "OK"), None, sessions)
    end
  else (Ok (PlainResponse "OK"), None, sessions).

(** One request served by the application. *)
Definition serve (request : Request) (sessions : gmap string CallSession.t)
    : Result Response * gmap string CallSession.t :=
  match request with
  | VoiceRequest form_data => handle_twilio_voice_webhook form_data sessions
  | SpeechRequest form_data => handle_twilio_speech_webhook form_data sessions
  | StatusRequest form_data =>
      let '(response, _, sessions) :=
        handle_twilio_status_webhook form_data sessions in
      (response, sessions)
  end.

(** The registry after a sequence of requests served one after the
    other; an exception in one request does not stop the server. *)
Definition serve_all (requests : list Request)
    (sessions : gmap string CallSession.t) : gmap string CallSession.t :=
  fold_left (fun sessions request => (serve request sessions).2)
            requests sessions.
End App.

(** ** Specification vocabulary *)

(** [needle] is a substring of [haystack]. *)
Definition substring_of (needle haystack : string) : Prop :=
  ∃ pre post, haystack = pre ++ needle ++ post.

(** Some keyword of the list occurs in the message. *)
Definition matches (message_lower : string) (keywords : list string) : bool :=
  existsb (fun keyword => contains keyword message_lower) keywords.
Arguments matches : simpl never.

(** The history, escalation flag and summary of a call as the registry
    holds them; a call without a session reads as a new session does. *)
Definition session_of (sessions : gmap string CallSession.t)
    (call_sid : string) : CallSession.t :=
  match sessions !! call_sid with
  | Some session => session
  | None => CallSession.init call_sid
  end.

(** A request that ends the session of [call_sid]: a status request for
    it with a terminal status. *)
Definition ends_call (call_sid : string) (request : Request) : bool :=
  match request with
  | StatusRequest form_data =>
      String.eqb (dict_get form_data "CallSid" EmptyString) call_sid
      && bool_decide (dict_get form_data "CallStatus" EmptyString
                        ∈ terminal_statuses)
  | _ => false
  end.

(** An agent whose upstream text generation is down: the classifier
    works, [generate_response] raises. *)
Definition agent_without_generation (lower : string -> string) : AgentOps :=
  {| agent_analyze_intent := fun m => Ok (analyze_intent lower m);
     agent_generate_response :=
       fun _ _ _ => Raise (RuntimeError "text generation unavailable");
     agent_needs_escalation := fun m h a => Ok (needs_escalation lower m h a) |}.

(** Sample configuration for concrete runs: the defaults of [app.py]. *)
Definition sample_info : RestaurantInfo :=
  {| name := "Restaurant Name";
     address := "Restaurant Address";
     hours := "Open from 10 AM to 10 PM daily";
     menu_categories := ["Appetizers"; "Main Courses"; "Desserts"; "Beverages"];
     delivery_policy := "We offer delivery within a 5-mile radius from 11 AM to 9 PM";
     phone := "Phone Number" |}.

Definition speech_form (call_sid speech_result confidence : string)
    : gmap string string :=
  <["CallSid" := call_sid]>
    (<["SpeechResult" := speech_result]> {["Confidence" := confidence]}).

Definition status_form (call_sid call_status : string) : gmap string string :=
  <["CallSid" := call_sid]> {["CallStatus" := call_status]}.

(** The call a request is about: its [CallSid] field. *)
Definition request_call_sid (request : Request) : string :=
  match request with
  | VoiceRequest form_data
  | SpeechRequest form_data
  | StatusRequest form_data => dict_get form_data "CallSid" EmptyString
  end.

(** A history made of exchanges: a user turn, then an assistant turn. *)
Fixpoint exchanges (history : list Turn) : Prop :=
  match history with
  | [] => True
  | user_turn :: assistant_turn :: rest =>
      role user_turn = "user" ∧ role assistant_turn = "assistant"
      ∧ exchanges rest
  | _ => False
  end.

(** A speech request for [call_sid] that passes the test of the speech
    webhook: non-empty text and a confidence that is not below 0.5. *)
Definition usable_speech (py_float : string -> Result pyfloat)
    (call_sid : string) (request : Request) : bool :=
  match request with
  | SpeechRequest form_data =>
      String.eqb (dict_get form_data "CallSid" EmptyString) call_sid
      && negb (String.eqb (dict_get form_data "SpeechResult" EmptyString)
                          EmptyString)
      && match py_float (dict_get form_data "Confidence" "0.0") with
         | Ok c => negb (float_lt c half)
         | Raise _ => false
         end
  | _ => false
  end.

(** [HTTPException(status_code=..., detail=...)]. *)
Record HTTPException : Type := {
  status_code : nat;
  detail : string
}.

(** [GET /api/session/{call_sid}]: the five fields of the session, or the
    404 error when the call has no session. *)
Definition get_call_session (call_sid : string)
    (sessions : gmap string CallSession.t) : CallSession.t + HTTPException :=
  match sessions !! call_sid with
  | Some session => inl session
  | None => inr {| status_code := 404; detail := "Session not found" |}
  end.

Definition voice_form (call_sid from_number to_number : string)
    : gmap string string :=
  <["CallSid" := call_sid]>
    (<["From" := from_number]> {["To" := to_number]}).

(** What the handlers keep true of the session registered for a call:
    it carries the call's id, its history is made of exchanges, the only
    caller datum is the phone, and a summary is only there on an escalated
    session, for this call, with the length of the history. *)
Definition session_consistent (call_sid : string) (session : CallSession.t)
    : Prop :=
  CallSession.call_sid session = call_sid
  ∧ exchanges (CallSession.conversation_history session)
  ∧ (∀ key, is_Some (CallSession.caller_info session !! key) → key = "phone")
  ∧ ∀ summary,
      CallSession.call_summary session = Some summary →
      CallSession.escalation_needed session = true
      ∧ summary_call_sid summary = call_sid
      ∧ final_intent summary = "Escalated to human"
      ∧ conversation_length summary
        = length (CallSession.conversation_history session).

(** A sample call for concrete runs: the call starts, the caller asks for
    the hours and then wants to order. *)
Definition sample_call : list Request :=
  [ VoiceRequest (voice_form "CA1" "+15550100" "+15550199");
    SpeechRequest (speech_form "CA1" "What time do you open?" "0.9");
    SpeechRequest (speech_form "CA1" "I want to order a pizza" "0.8") ].

(** [s.split(sep)] for a non-empty separator (Python raises [ValueError]
    on an empty one; the program only splits on [", "]).  The text is
    read left to right: [skip] counts the characters of a separator just
    found that are still to be passed over, [current] is the part read
    since the last separator. *)
Fixpoint split_from (sep s : string) (skip : nat) (current : string)
    : list string :=
  match s with
  | EmptyString => [current]
  | String c rest =>
      match skip with
      | S skip' => split_from sep rest skip' current
      | O =>
          if String.prefix sep s
          then current
                 :: split_from sep rest (String.length sep - 1) EmptyString
          else split_from sep rest 0 (current ++ String c EmptyString)
      end
  end.

Definition split (sep s : string) : list string :=
  split_from sep s 0 EmptyString.

(** [self.restaurant_info] of [RestaurantAIAgent.__init__], from the
    environment [env] ([os.getenv(key, default)] is [dict_get]). *)
Definition agent_restaurant_info (env : gmap string string) : RestaurantInfo :=
  {| name := dict_get env "RESTAURANT_NAME" "Your Restaurant Name";
     address :=
       dict_get env "RESTAURANT_ADDRESS"
                "123 Restaurant Street, City, State 12345";
     hours := dict_get env "RESTAURANT_HOURS" "Open from 10 AM to 10 PM daily";
     menu_categories :=
       split ", "
         (dict_get env "MENU_CATEGORIES"
                   "Appetizers, Main Courses, Desserts, Beverages");
     delivery_policy :=
       dict_get env "DELIVERY_POLICY"
                "We offer delivery within a 5-mile radius from 11 AM to 9 PM";
     phone := dict_get env "RESTAURANT_PHONE" "Phone Number" |}.

(** [RESTAURANT_INFO] of [app.py], from the same environment. *)
Definition app_restaurant_info (env : gmap string string) : RestaurantInfo :=
  {| name := dict_get env "RESTAURANT_NAME" "Restaurant Name";
     address := dict_get env "RESTAURANT_ADDRESS" "Restaurant Address";
     hours := dict_get env "RESTAURANT_HOURS" "Open from 10 AM to 10 PM daily";
     menu_categories :=
       split ", "
         (dict_get env "MENU_CATEGORIES"
                   "Appetizers, Main Courses, Desserts, Beverages");
     delivery_policy :=
       dict_get env "DELIVERY_POLICY"
                "We offer delivery within a 5-mile radius from 11 AM to 9 PM";
     phone := dict_get env "RESTAURANT_PHONE" "Phone Number" |}.

(** *** The speech services of app.py *)

(** What the two speech functions do to the outside world, in order. *)
Inductive ServiceEvent : Type :=
  | HttpRequest (url : string)
  | FileCreated (filename : string)
  | FileRemoved (filename : string).

(** The outside world as the two functions use it; every operation may
    raise.  [requests_get] and [requests_post] give the status code and
    the content of the response, [temp_file] is
    [tempfile.NamedTemporaryFile(delete=False, suffix=...)] and gives the
    name of the file it created, [file_write] writes the content and
    closes the file on leaving the [with] block, [transcribe] opens the
    file and calls the transcription API, giving [transcript.text]. *)
Record Services : Type := {
  requests_get : string -> Result (nat * string);
  requests_post : string -> string -> Result (nat * string);
  temp_file : string -> Result string;
  file_write : string -> string -> Result unit;
  transcribe : string -> Result string;
  os_unlink : string -> Result unit;
  os_path_basename : string -> string
}.

(** A local name of a function at some point of its body. *)
Inductive Local (A : Type) : Type :=
  | Bound (value : A)
  | Unbound.
Arguments Bound {A} value.
Arguments Unbound {A}.

Section SpeechServices.
Variable services : Services.
(** Whether the module-level [openai_client] is set. *)
Variable openai_client : bool.

(** [text_to_speech] returns a URL or [None].  The [import os] inside its
    [if] makes [os] a local name of the whole function, so where the URL
    is built, at the start of the [try] block, [os] is an unbound local:
    reading it raises [UnboundLocalError], which the [except] catches. *)
Definition text_to_speech (text : string) : option string * list ServiceEvent :=
  match (Unbound : Local (string -> string -> string)) with
  | Unbound => (None, [])
  | Bound os_getenv =>
      let url :=
        "https://api.elevenlabs.io/v1/text-to-speech/"
          ++ os_getenv "ELEVENLABS_VOICE_ID" "21m00Tcm4TlvDq8ikWAM"
          ++ "/stream" in
      match requests_post services url text with
      | Raise _ => (None, [HttpRequest url])
      | Ok (status_code, response_content) =>
          if Nat.eqb status_code 200 then
            match temp_file services ".mp3" with
            | Raise _ => (None, [HttpRequest url])
            | Ok temp_audio =>
                match file_write services temp_audio response_content with
                | Raise _ => (None, [HttpRequest url; FileCreated temp_audio])
                | Ok _ =>
                    (Some ("http://localhost:8000/audio/"
                             ++ os_path_basename services temp_audio),
                     [HttpRequest url; FileCreated temp_audio])
                end
            end
          else (None, [HttpRequest url])
      end
  end.

(** [speech_to_text] returns the transcript, or [""] on every failure.
    Its two imports come before the uses of the names they bind. *)
Definition speech_to_text (audio_url : string) : string * list ServiceEvent :=
  if negb openai_client then (EmptyString, [])
  else
    match requests_get services audio_url with
    | Raise _ => (EmptyString, [HttpRequest audio_url])
    | Ok (status_code, response_content) =>
        if negb (Nat.eqb status_code 200)
        then (EmptyString, [HttpRequest audio_url])
        else
          match temp_file services ".wav" with
          | Raise _ => (EmptyString, [HttpRequest audio_url])
          | Ok temp_filename =>
              match file_write services temp_filename response_content with
              | Raise _ =>
                  (EmptyString,
                   [HttpRequest audio_url; FileCreated temp_filename])
              | Ok _ =>
                  (* try: ... finally: os.unlink(temp_filename) *)
                  let transcript := transcribe services temp_filename in
                  match os_unlink services temp_filename with
                  | Raise _ =>
                      (EmptyString,
                       [HttpRequest audio_url; FileCreated temp_filename])
                  | Ok _ =>
                      (match transcript with
                       | Ok text => text
                       | Raise _ => EmptyString
                       end,
                       [HttpRequest audio_url; FileCreated temp_filename;
                        FileRemoved temp_filename])
                  end
              end
          end
    end.
End SpeechServices.

(** Services for concrete runs: the download works, the transcription
    fails. *)
Definition services_without_transcription : Services :=
  {| requests_get := fun _ => Ok (200, "audio");
     requests_post := fun _ _ => Ok (200, "audio");
     temp_file := fun suffix => Ok ("/tmp/tmp0" ++ suffix);
     file_write := fun _ _ => Ok tt;
     transcribe := fun _ => Raise (RuntimeError "transcription unavailable");
     os_unlink := fun _ => Ok tt;
     os_path_basename := fun path => path |}.

(** Membership and non-membership in a list written out. *)
Ltac elem_of_literal :=
  repeat first [ apply list_elem_of_here | apply list_elem_of_further ].

Ltac not_elem_of_literal :=
  rewrite ?elem_of_cons, elem_of_nil; intuition discriminate.

(** ** Strings *)

Lemma append_nil s : EmptyString ++ s = s.
Proof. reflexivity. Qed.

Lemma append_cons c s1 s2 : String c s1 ++ s2 = String c (s1 ++ s2).
Proof. reflexivity. Qed.

Lemma prefix_spec needle haystack :
  String.prefix needle haystack = true ↔ ∃ post, haystack = needle ++ post.
Proof.
  revert haystack.
  induction needle as [|c needle IH]; intros [|d haystack]; simpl.
  - split; [intros _; by exists EmptyString | done].
  - split; [intros _; by exists (String d haystack) | done].
  - split; [done | intros [post Hpost]; discriminate].
  - destruct (Ascii.ascii_dec c d) as [->|Hne].
    + rewrite IH.
      split; intros [post Hpost]; exists post; rewrite append_cons in *;
        congruence.
    + split; [done | intros [post Hpost]; rewrite append_cons in Hpost; congruence].
Qed.

Lemma contains_nil needle :
  contains needle EmptyString = String.prefix needle EmptyString.
Proof. simpl. by destruct needle. Qed.

Lemma contains_cons needle c rest :
  contains needle (String c rest)
  = String.prefix needle (String c rest) || contains needle rest.
Proof.
  change (contains needle (String c rest))
    with (if String.prefix needle (String c rest) then true
          else contains needle rest).
  by destruct (String.prefix needle (String c rest)).
Qed.

Lemma contains_spec needle haystack :
  contains needle haystack = true ↔ substring_of needle haystack.
Proof.
  unfold substring_of.
  induction haystack as [|c rest IH].
  - rewrite contains_nil, prefix_spec. split.
    + intros [post Hpost]. by exists EmptyString, post.
    + intros (pre & post & Heq). destruct pre; [|discriminate]. eauto.
  - rewrite contains_cons, orb_true_iff, prefix_spec, IH. split.
    + intros [[post Hpost] | (pre & post & ->)].
      * by exists EmptyString, post.
      * by exists (String c pre), post.
    + intros (pre & post & Heq). destruct pre as [|d pre].
      * left. eauto.
      * right. rewrite append_cons in Heq. injection Heq as -> ->. eauto.
Qed.

Lemma not_contains_spec needle haystack :
  contains needle haystack = false ↔ ¬ substring_of needle haystack.
Proof.
  rewrite <- contains_spec. by destruct (contains needle haystack).
Qed.

Lemma matches_spec message_lower keywords :
  matches message_lower keywords = true
  ↔ ∃ keyword, keyword ∈ keywords ∧ substring_of keyword message_lower.
Proof.
  unfold matches. rewrite existsb_exists.
  split; intros (keyword & Hin & Hc); exists keyword.
  - by rewrite list_elem_of_In, <- contains_spec.
  - by rewrite <- list_elem_of_In, contains_spec.
Qed.

Lemma not_matches_spec message_lower keywords :
  matches message_lower keywords = false
  ↔ ∀ keyword, keyword ∈ keywords → ¬ substring_of keyword message_lower.
Proof.
  split.
  - intros Hm keyword Hin Hsub.
    assert (matches message_lower keywords = true) by (apply matches_spec; eauto).
    congruence.
  - intros Hall. destruct (matches message_lower keywords) eqn:Hm; [|done].
    apply matches_spec in Hm as (keyword & Hin & Hsub). by destruct (Hall keyword).
Qed.

(** ** The detection loops *)

Lemma scan_keywords_member message_lower intent keywords detected :
  intent ∈ detected →
  fold_left (scan_keyword message_lower intent) keywords detected = detected.
Proof.
  intros Hin. induction keywords as [|keyword keywords IH]; simpl; [done|].
  unfold scan_keyword at 2.
  destruct (contains keyword message_lower); [|done].
  by rewrite (bool_decide_eq_true_2 _ Hin).
Qed.

Lemma scan_intent_spec message_lower detected intent keywords :
  scan_intent message_lower detected (intent, keywords)
  = if matches message_lower keywords
    then if bool_decide (intent ∈ detected) then detected
         else (detected ++ [intent])%list
    else detected.
Proof.
  unfold scan_intent, matches. simpl.
  induction keywords as [|keyword keywords IH]; simpl; [done|].
  unfold scan_keyword at 2.
  destruct (contains keyword message_lower); simpl; [|done].
  case_bool_decide as Hin.
  - by apply scan_keywords_member.
  - apply scan_keywords_member, elem_of_app. right. apply list_elem_of_here.
Qed.

Lemma scan_table_spec message_lower (table : list (Intent * list string)) :
  NoDup table.*1 →
  ∀ detected,
    (∀ intent, intent ∈ table.*1 → intent ∉ detected) →
    fold_left (scan_intent message_lower) table detected
    = (detected
       ++ (List.filter (fun entry => matches message_lower entry.2) table).*1)%list.
Proof.
  induction table as [|[intent keywords] table IH]; simpl; intros Hnd detected Hfresh.
  - by rewrite app_nil_r.
  - apply NoDup_cons in Hnd as [Hnotin Hnd].
    rewrite scan_intent_spec.
    destruct (matches message_lower keywords); simpl.
    + rewrite bool_decide_eq_false_2 by apply Hfresh, list_elem_of_here.
      rewrite IH; [by rewrite <- app_assoc | done |].
      intros i Hi. rewrite elem_of_app, list_elem_of_singleton.
      intros [Hd | ->]; [|done].
      by apply (Hfresh i (list_elem_of_further _ _ _ Hi)).
    + apply IH; [done|]. intros i Hi. by apply Hfresh, list_elem_of_further.
Qed.

(** The detected intents are the intents of the table with a matching
    keyword, in table order. *)
Lemma detect_intents_spec message_lower :
  detect_intents message_lower
  = (List.filter (fun entry => matches message_lower entry.2) intent_keywords).*1.
Proof.
  unfold detect_intents.
  rewrite scan_table_spec; [done | | intros ? _; apply not_elem_of_nil].
  simpl. repeat (apply NoDup_cons; split; [not_elem_of_literal|]).
  apply NoDup_nil_2.
Qed.

Lemma detect_intents_elem message_lower intent :
  intent ∈ detect_intents message_lower
  ↔ ∃ keywords, (intent, keywords) ∈ intent_keywords
                ∧ matches message_lower keywords = true.
Proof.
  rewrite detect_intents_spec, list_elem_of_fmap. split.
  - intros ([i keywords] & -> & Hin). exists keywords.
    apply list_elem_of_In, filter_In in Hin as [Hin Hm].
    by rewrite list_elem_of_In.
  - intros (keywords & Hin & Hm). exists (intent, keywords). split; [done|].
    apply list_elem_of_In, filter_In. by rewrite <- list_elem_of_In.
Qed.

Lemma detect_intents_nil message_lower :
  detect_intents message_lower = [] →
  ∀ intent keywords, (intent, keywords) ∈ intent_keywords →
                     matches message_lower keywords = false.
Proof.
  intros Hnil intent keywords Hin.
  destruct (matches message_lower keywords) eqn:Hm; [|done].
  assert (intent ∈ detect_intents message_lower) as Hd
    by (apply detect_intents_elem; eauto).
  rewrite Hnil in Hd. by apply elem_of_nil in Hd.
Qed.

Lemma general_inquiry_not_detected message_lower :
  general_inquiry ∉ detect_intents message_lower.
Proof.
  rewrite detect_intents_elem. intros (keywords & Hin & _).
  unfold intent_keywords in Hin.
  repeat (apply elem_of_cons in Hin as [Hin|Hin]; [discriminate|]).
  by apply elem_of_nil in Hin.
Qed.

(** [primary_intent] is [general_inquiry] exactly when no keyword of the
    table occurs in the lower-cased message. *)
Lemma primary_general_inquiry lower user_message :
  primary_intent (analyze_intent lower user_message) = general_inquiry
  ↔ detect_intents (lower user_message) = [].
Proof.
  unfold analyze_intent. simpl.
  pose proof (general_inquiry_not_detected (lower user_message)) as Hg.
  destruct (detect_intents (lower user_message)) as [|i rest]; simpl; [done|].
  split; [|done]. intros ->. destruct Hg. apply list_elem_of_here.
Qed.

Lemma all_detected_intents_eq lower user_message :
  all_detected_intents (analyze_intent lower user_message)
  = match detect_intents (lower user_message) with
    | [] => [general_inquiry]
    | detected => detected
    end.
Proof.
  unfold analyze_intent. simpl.
  by destruct (detect_intents (lower user_message)).
Qed.

Lemma no_keyword_contained message_lower :
  detect_intents message_lower = [] →
  ∀ keyword,
    keyword ∈ List.concat intent_keywords.*2 →
    contains keyword message_lower = false.
Proof.
  intros Hnil keyword Hkeyword.
  apply list_elem_of_In, in_concat in Hkeyword as (keywords & Hin & Hkeyword).
  apply list_elem_of_In, list_elem_of_fmap in Hin as ([intent ?] & -> & Hentry).
  apply not_contains_spec.
  apply (proj1 (not_matches_spec _ _)
           (detect_intents_nil _ Hnil intent _ Hentry)).
  by apply list_elem_of_In.
Qed.

(** ** The intent classifier *)

(** [any(intent in escalation_intents for intent in detected_intents)]. *)
Lemma escalation_flag_spec lower user_message :
  escalation_needed (analyze_intent lower user_message) = true
  ↔ ∃ intent,
      intent ∈ all_detected_intents (analyze_intent lower user_message)
      ∧ intent ∈ escalation_intents.
Proof.
  unfold analyze_intent. simpl. rewrite existsb_exists.
  split; intros (intent & Hin & Hesc); exists intent.
  - split; [by apply list_elem_of_In | by apply bool_decide_eq_true in Hesc].
  - split; [by apply list_elem_of_In | by apply bool_decide_eq_true].
Qed.

(** C1: the [escalation_needed] flag of the analysis of any utterance is
    true exactly when one of the detected intents is [order_request],
    [reservation_request], [complaint] or [contact_staff]; when the only
    detected intent is [general_inquiry] the flag is false. *)
Theorem escalation_needed_iff lower user_message :
  let analysis := analyze_intent lower user_message in
  (escalation_needed analysis = true
   ↔ ∃ intent,
       intent ∈ all_detected_intents analysis
       ∧ intent ∈ [order_request; reservation_request; complaint; contact_staff])
  ∧ (all_detected_intents analysis = [general_inquiry] →
     escalation_needed analysis = false).
Proof.
  intros analysis. split; [apply escalation_flag_spec|].
  intros Hdetected.
  destruct (escalation_needed analysis) eqn:Hflag; [|done].
  apply escalation_flag_spec in Hflag as (intent & Hin & Hesc).
  fold analysis in Hin. rewrite Hdetected in Hin.
  apply list_elem_of_singleton in Hin as ->.
  unfold escalation_intents in Hesc.
  repeat (apply elem_of_cons in Hesc as [Hesc|Hesc]; [discriminate|]).
  by apply elem_of_nil in Hesc.
Qed.

Lemma escalation_needed_iff_witness :
  escalation_needed (analyze_intent ascii_lower "Is there parking nearby") = false.
Proof.
  apply (escalation_needed_iff ascii_lower "Is there parking nearby").
  vm_compute. reflexivity.
Defined.

(** The flag in terms of the utterance: it is true exactly when a keyword
    of one of the four escalating intents occurs in the lower-cased
    utterance. *)
Lemma escalation_needed_keywords lower user_message :
  escalation_needed (analyze_intent lower user_message) = true
  ↔ ∃ intent keywords keyword,
      intent ∈ escalation_intents
      ∧ (intent, keywords) ∈ intent_keywords
      ∧ keyword ∈ keywords
      ∧ substring_of keyword (lower user_message).
Proof.
  rewrite escalation_flag_spec, all_detected_intents_eq.
  pose proof (detect_intents_elem (lower user_message)) as Helem.
  destruct (detect_intents (lower user_message)) as [|i rest] eqn:Hd.
  - split.
    + intros (intent & Hin & Hesc). apply list_elem_of_singleton in Hin as ->.
      unfold escalation_intents in Hesc.
      repeat (apply elem_of_cons in Hesc as [Hesc|Hesc]; [discriminate|]).
      by apply elem_of_nil in Hesc.
    + intros (intent & keywords & keyword & _ & Hentry & Hkeyword & Hsub).
      assert (intent ∈ @nil Intent) as Hin.
      { apply Helem. exists keywords. split; [done|].
        apply matches_spec. eauto. }
      by apply elem_of_nil in Hin.
  - split.
    + intros (intent & Hin & Hesc).
      apply Helem in Hin as (keywords & Hentry & Hm).
      apply matches_spec in Hm as (keyword & Hkeyword & Hsub).
      by exists intent, keywords, keyword.
    + intros (intent & keywords & keyword & Hesc & Hentry & Hkeyword & Hsub).
      exists intent. split; [|done].
      apply Helem. exists keywords. split; [done|].
      apply matches_spec. eauto.
Qed.

(** C8: an utterance whose lower-casing contains one of the
    [hours_inquiry] keywords and none of the [greeting] keywords is
    classified with [primary_intent = hours_inquiry]. *)
Theorem hours_keyword_primary_intent lower user_message :
  (∃ keyword,
      keyword ∈ ["open"; "close"; "hours"; "time"; "when"; "what time";
                 "what are your hours"]
      ∧ substring_of keyword (lower user_message)) →
  (∀ keyword,
      keyword ∈ ["hello"; "hi"; "hey"; "good morning"; "good afternoon";
                 "good evening"] →
      ¬ substring_of keyword (lower user_message)) →
  primary_intent (analyze_intent lower user_message) = hours_inquiry.
Proof.
  intros Hhours%matches_spec Hgreeting%not_matches_spec.
  unfold analyze_intent. simpl.
  rewrite detect_intents_spec. unfold intent_keywords. simpl.
  rewrite Hgreeting, Hhours. reflexivity.
Qed.

Lemma hours_keyword_primary_intent_witness :
  primary_intent (analyze_intent ascii_lower "What time do you open?")
  = hours_inquiry.
Proof.
  apply hours_keyword_primary_intent.
  - exists "open". split; [elem_of_literal|].
    apply contains_spec. vm_compute. reflexivity.
  - apply not_matches_spec. vm_compute. reflexivity.
Defined.

(** ** The reply generator *)

(** With no table keyword in the message, the fallback can only answer
    with the hours sentence (on ["hour"], which is no table keyword) or
    with the default sentence. *)
Lemma mock_response_without_keywords lower restaurant_info user_message intent :
  detect_intents (lower user_message) = [] →
  _generate_mock_response lower restaurant_info user_message intent
  = if contains "hour" (lower user_message)
    then mock_hours_sentence lower restaurant_info
    else mock_default_sentence lower restaurant_info.
Proof.
  intros Hnil. unfold _generate_mock_response.
  pose proof (no_keyword_contained _ Hnil) as Hno.
  rewrite (Hno "open"), (Hno "where"), (Hno "address"), (Hno "menu"),
          (Hno "food"), (Hno "order"), (Hno "delivery")
    by (simpl; elem_of_literal).
  simpl. by destruct (contains "hour" (lower user_message)).
Qed.

(** C10: when [generate_response] is given the analysis of the utterance
    and falls through to the mock fallback ([primary_intent] is
    [general_inquiry]), the lower-cased utterance contains neither
    ["order"] nor ["delivery"], the reply is not the fallback's
    staff-transfer sentence, and it is one of the hours, address, menu and
    default sentences. *)
Theorem mock_order_sentence_unreachable lower restaurant_info user_message
    conversation_history :
  let analysis := analyze_intent lower user_message in
  let reply :=
    generate_response lower restaurant_info user_message conversation_history
                      (Some analysis) in
  primary_intent analysis = general_inquiry →
  ¬ substring_of "order" (lower user_message)
  ∧ ¬ substring_of "delivery" (lower user_message)
  ∧ reply = _generate_mock_response lower restaurant_info user_message
                                    general_inquiry
  ∧ reply ≠ mock_order_sentence
  ∧ reply ∈ [mock_hours_sentence lower restaurant_info;
             mock_address_sentence restaurant_info;
             mock_menu_sentence restaurant_info;
             mock_default_sentence lower restaurant_info].
Proof.
  intros analysis reply Hprimary.
  assert (detect_intents (lower user_message) = []) as Hnil
    by by apply primary_general_inquiry.
  assert (reply = _generate_mock_response lower restaurant_info user_message
                                          general_inquiry) as Hreply.
  { unfold reply, generate_response. fold analysis. by rewrite Hprimary. }
  split; [|split; [|split; [done|]]].
  - apply not_contains_spec, (no_keyword_contained _ Hnil).
    simpl. elem_of_literal.
  - apply not_contains_spec, (no_keyword_contained _ Hnil).
    simpl. elem_of_literal.
  - rewrite Hreply, (mock_response_without_keywords _ _ _ _ Hnil).
    destruct (contains "hour" (lower user_message)); split;
      try discriminate; elem_of_literal.
Qed.

Lemma mock_order_sentence_unreachable_witness :
  generate_response ascii_lower sample_info "Is there parking nearby" []
    (Some (analyze_intent ascii_lower "Is there parking nearby"))
  ≠ mock_order_sentence.
Proof.
  apply (mock_order_sentence_unreachable ascii_lower sample_info
           "Is there parking nearby" []).
  vm_compute. reflexivity.
Defined.

(** X7: the bound of C10 sharpened.  ["where"], ["address"], ["menu"] and
    ["food"] are table keywords as well, so of the five fallback sentences
    only the hours and the default sentence can be returned. *)
Lemma mock_fallback_replies lower restaurant_info user_message
    conversation_history :
  let analysis := analyze_intent lower user_message in
  primary_intent analysis = general_inquiry →
  generate_response lower restaurant_info user_message conversation_history
                    (Some analysis)
  ∈ [mock_hours_sentence lower restaurant_info;
     mock_default_sentence lower restaurant_info].
Proof.
  intros analysis Hprimary.
  assert (detect_intents (lower user_message) = []) as Hnil
    by by apply primary_general_inquiry.
  unfold generate_response. fold analysis. rewrite Hprimary.
  rewrite (mock_response_without_keywords _ _ _ _ Hnil).
  destruct (contains "hour" (lower user_message)); elem_of_literal.
Qed.

Example fallback_hours_reachable :
  generate_response ascii_lower sample_info "Is there a happy hour" []
    (Some (analyze_intent ascii_lower "Is there a happy hour"))
  = "We are open from 10 am to 10 pm daily.".
Proof. vm_compute. reflexivity. Qed.

(** ** Sessions and the registry *)

Lemma get_session_spec call_sid (sessions : gmap string CallSession.t) :
  get_session call_sid sessions
  = (session_of sessions call_sid,
     <[call_sid := session_of sessions call_sid]> sessions).
Proof.
  unfold get_session, session_of.
  destruct (sessions !! call_sid) as [session|] eqn:Hs; [|done].
  by rewrite insert_id.
Qed.

Lemma session_of_insert call_sid session (sessions : gmap string CallSession.t) :
  session_of (<[call_sid := session]> sessions) call_sid = session.
Proof. unfold session_of. by rewrite lookup_insert_eq. Qed.

Lemma session_of_present call_sid session (sessions : gmap string CallSession.t) :
  sessions !! call_sid = Some session → session_of sessions call_sid = session.
Proof. unfold session_of. by intros ->. Qed.

Lemma insert_session_of call_sid (sessions : gmap string CallSession.t) session :
  sessions !! call_sid = Some session →
  <[call_sid := session_of sessions call_sid]> sessions = sessions.
Proof. intros Hs. rewrite (session_of_present _ _ _ Hs). by apply insert_id. Qed.

Lemma float_le_half_not_lt c : float_le half c = true → float_lt c half = false.
Proof.
  destruct c as [|negative|q]; simpl; [done| |].
  - by destruct negative.
  - by intros ->.
Qed.

(** ** TwiML selection *)

Section Twiml.
Variable twilio_phone : option string.

Lemma twiml_unclear :
  generate_twiml_response twilio_phone "unclear" ∅ = create_unclear_response.
Proof. reflexivity. Qed.

Lemma twiml_greeting restaurant_name :
  generate_twiml_response twilio_phone "greeting"
    {[ "restaurant_name" := restaurant_name ]}
  = create_greeting_response restaurant_name.
Proof.
  unfold generate_twiml_response, dict_get. simpl.
  by rewrite lookup_singleton_eq.
Qed.

Lemma twiml_escalation restaurant_phone :
  generate_twiml_response twilio_phone "escalation"
    {[ "restaurant_phone" := restaurant_phone ]}
  = create_escalation_response twilio_phone restaurant_phone.
Proof.
  unfold generate_twiml_response, dict_get. simpl.
  by rewrite lookup_singleton_eq.
Qed.

Lemma twiml_speech_response ai_response call_sid :
  generate_twiml_response twilio_phone "speech_response"
    (<[ "ai_response" := ai_response ]> {[ "call_sid" := call_sid ]})
  = create_speech_response ai_response call_sid.
Proof.
  unfold generate_twiml_response, dict_get. simpl.
  by rewrite lookup_insert_eq, lookup_insert_ne, lookup_singleton_eq.
Qed.
End Twiml.

(** ** get_ai_response *)

Section Reply.
Variable ai_agent : AgentOps.

(** The [except] branch turns every exception into the apology, so the
    function itself never raises. *)
Lemma get_ai_response_returns user_message session :
  ∃ reply, (get_ai_response ai_agent user_message session).1 = Ok reply.
Proof.
  unfold get_ai_response, try_except, bind, call, read, update, ret.
  destruct (agent_analyze_intent ai_agent user_message); simpl; [|eauto].
  destruct (agent_generate_response ai_agent _ _ _); simpl; [|eauto].
  destruct (agent_needs_escalation ai_agent _ _ _) as [[]|];
    simpl; eauto.
Qed.

(** A failure of the classifier or of the generator happens before the
    session is touched. *)
Lemma get_ai_response_failure user_message session :
  (∃ e, agent_analyze_intent ai_agent user_message = Raise e)
  ∨ (∃ analysis e,
        agent_analyze_intent ai_agent user_message = Ok analysis
        ∧ agent_generate_response ai_agent user_message
            (CallSession.conversation_history session) (Some analysis)
          = Raise e) →
  get_ai_response ai_agent user_message session = (Ok apology, session).
Proof.
  unfold get_ai_response, try_except, bind, call, read, update, ret.
  intros [[e ->] | (analysis & e & -> & Hgen)]; simpl; [done|].
  by rewrite Hgen.
Qed.

(** Nothing in [get_ai_response] clears the flag. *)
Lemma get_ai_response_keeps_escalation user_message session :
  CallSession.escalation_needed session = true →
  CallSession.escalation_needed
    (get_ai_response ai_agent user_message session).2 = true.
Proof.
  intros Hesc.
  unfold get_ai_response, try_except, bind, call, read, update, ret.
  destruct (agent_analyze_intent ai_agent user_message); simpl; [|done].
  destruct (agent_generate_response ai_agent _ _ _); simpl; [|done].
  destruct (agent_needs_escalation ai_agent _ _ _) as [[]|]; simpl; done.
Qed.
End Reply.

(** With the agent of [ai_agent.py] the reply is the generated one, both
    turns are appended and the flag is raised when the analysis says so. *)
Lemma get_ai_response_agent lower restaurant_info user_message session :
  let analysis := analyze_intent lower user_message in
  let reply :=
    generate_response lower restaurant_info user_message
      (CallSession.conversation_history session) (Some analysis) in
  let session' :=
    CallSession.add_message "assistant" reply
      (CallSession.add_message "user" user_message session) in
  get_ai_response (RestaurantAIAgent lower restaurant_info) user_message session
  = (Ok reply,
     if escalation_needed analysis then CallSession.mark_escalation session'
     else session').
Proof.
  cbv zeta.
  unfold get_ai_response, try_except, bind, call, read, update, ret,
    RestaurantAIAgent, needs_escalation.
  cbn [agent_analyze_intent agent_generate_response agent_needs_escalation].
  by destruct (escalation_needed (analyze_intent lower user_message)).
Qed.

(** ** The speech webhook *)

Section Speech.
Variable ai_agent : AgentOps.
Variable py_float : string -> Result pyfloat.
Variable twilio_phone : option string.
Variable RESTAURANT_INFO : RestaurantInfo.

Abbreviation handle :=
  (handle_twilio_speech_webhook ai_agent py_float twilio_phone
     RESTAURANT_INFO).

Lemma speech_unclear form_data (sessions : gmap string CallSession.t) :
  let call_sid := dict_get form_data "CallSid" EmptyString in
  let speech_result := dict_get form_data "SpeechResult" EmptyString in
  let confidence := dict_get form_data "Confidence" "0.0" in
  speech_result = EmptyString
  ∨ (∃ c, py_float confidence = Ok c ∧ float_lt c half = true) →
  handle form_data sessions
  = (Ok (XmlResponse create_unclear_response),
     <[call_sid := session_of sessions call_sid]> sessions).
Proof.
  intros call_sid speech_result confidence Hunclear.
  unfold handle_twilio_speech_webhook.
  fold call_sid speech_result confidence.
  rewrite get_session_spec, twiml_unclear.
  destruct Hunclear as [-> | (c & Hc & Hlt)]; [done|].
  destruct (String.eqb speech_result EmptyString); [done|].
  by rewrite Hc, Hlt.
Qed.

Lemma speech_malformed_confidence form_data
    (sessions : gmap string CallSession.t) e :
  let call_sid := dict_get form_data "CallSid" EmptyString in
  let speech_result := dict_get form_data "SpeechResult" EmptyString in
  let confidence := dict_get form_data "Confidence" "0.0" in
  speech_result ≠ EmptyString →
  py_float confidence = Raise e →
  handle form_data sessions
  = (Raise e, <[call_sid := session_of sessions call_sid]> sessions).
Proof.
  intros call_sid speech_result confidence Htext Hconf.
  unfold handle_twilio_speech_webhook.
  fold call_sid speech_result confidence.
  rewrite get_session_spec.
  apply String.eqb_neq in Htext. by rewrite Htext, Hconf.
Qed.

Lemma speech_usable form_data (sessions : gmap string CallSession.t) c :
  let call_sid := dict_get form_data "CallSid" EmptyString in
  let speech_result := dict_get form_data "SpeechResult" EmptyString in
  let confidence := dict_get form_data "Confidence" "0.0" in
  let turn :=
    get_ai_response ai_agent speech_result (session_of sessions call_sid) in
  speech_result ≠ EmptyString →
  py_float confidence = Ok c →
  float_lt c half = false →
  ∃ ai_response,
    turn.1 = Ok ai_response
    ∧ handle form_data sessions
      = if CallSession.escalation_needed turn.2
        then (Ok (XmlResponse
                    (create_escalation_response twilio_phone
                       (phone RESTAURANT_INFO))),
              <[call_sid :=
                  CallSession.set_call_summary
                    (escalation_summary call_sid turn.2) turn.2]> sessions)
        else (Ok (XmlResponse (create_speech_response ai_response call_sid)),
              <[call_sid := turn.2]> sessions).
Proof.
  intros call_sid speech_result confidence turn Htext Hconf Hlt.
  destruct (get_ai_response_returns ai_agent speech_result
              (session_of sessions call_sid)) as [ai_response Hreply].
  exists ai_response. split; [done|].
  unfold handle_twilio_speech_webhook.
  fold call_sid speech_result confidence.
  rewrite get_session_spec.
  apply String.eqb_neq in Htext. rewrite Htext, Hconf, Hlt.
  fold turn in Hreply |- *. destruct turn as [reply session']. simpl in *.
  subst reply. unfold CallSession.needs_escalation.
  rewrite twiml_escalation, twiml_speech_response, !insert_insert_eq.
  by destruct (CallSession.escalation_needed session').
Qed.
End Speech.

(** ** Monotonicity of the escalation flag *)

Section Monotonic.
Variable ai_agent : AgentOps.
Variable py_float : string -> Result pyfloat.
Variable twilio_phone : option string.
Variable RESTAURANT_INFO : RestaurantInfo.

(** Whatever the speech webhook does, the registry afterwards is the
    old one with the call's session replaced, and a raised flag stays
    raised in the replacement. *)
Lemma speech_registry form_data (sessions : gmap string CallSession.t) :
  let call_sid := dict_get form_data "CallSid" EmptyString in
  ∃ session',
    (handle_twilio_speech_webhook ai_agent py_float twilio_phone
       RESTAURANT_INFO form_data sessions).2
    = <[call_sid := session']> sessions
    ∧ (CallSession.escalation_needed (session_of sessions call_sid) = true →
       CallSession.escalation_needed session' = true).
Proof.
  intros call_sid. unfold handle_twilio_speech_webhook. fold call_sid.
  rewrite get_session_spec.
  pose proof (get_ai_response_keeps_escalation ai_agent
                (dict_get form_data "SpeechResult" EmptyString)
                (session_of sessions call_sid)) as Hkeep.
  destruct (String.eqb _ EmptyString); [by eauto|].
  destruct (py_float _) as [c|e]; [|by eauto].
  destruct (float_lt c half); [by eauto|].
  destruct (get_ai_response _ _ _) as [[reply|e] session']; simpl in *.
  - destruct (CallSession.needs_escalation session');
      rewrite insert_insert_eq; eauto.
  - rewrite insert_insert_eq. eauto.
Qed.

Lemma serve_step request (sessions : gmap string CallSession.t)
    call_sid session :
  sessions !! call_sid = Some session →
  CallSession.escalation_needed session = true →
  let sessions' :=
    (serve ai_agent py_float twilio_phone RESTAURANT_INFO request sessions).2 in
  (∀ session', sessions' !! call_sid = Some session' →
               CallSession.escalation_needed session' = true)
  ∧ (ends_call call_sid request = false → is_Some (sessions' !! call_sid)).
Proof.
  intros Hs Hesc. destruct request as [form_data|form_data|form_data]; simpl.
  - unfold handle_twilio_voice_webhook, voice_webhook_body.
    set (k := dict_get form_data "CallSid" EmptyString).
    rewrite get_session_spec, insert_insert_eq. simpl.
    destruct (decide (k = call_sid)) as [->|Hne].
    + rewrite lookup_insert_eq, (session_of_present _ _ _ Hs).
      split; [by intros ? [= <-] | eauto].
    + rewrite lookup_insert_ne by done. rewrite Hs.
      split; [by intros ? [= <-] | eauto].
  - destruct (speech_registry form_data sessions) as (session' & -> & Hkeep).
    set (k := dict_get form_data "CallSid" EmptyString) in *.
    destruct (decide (k = call_sid)) as [->|Hne].
    + rewrite lookup_insert_eq, (session_of_present _ _ _ Hs) in *.
      split; [intros ? [= <-]; auto | eauto].
    + rewrite lookup_insert_ne by done. rewrite Hs.
      split; [by intros ? [= <-] | eauto].
  - unfold handle_twilio_status_webhook.
    set (k := dict_get form_data "CallSid" EmptyString).
    case_bool_decide as Hterminal; simpl.
    + destruct (sessions !! k) eqn:Hk; simpl.
      * destruct (decide (k = call_sid)) as [->|Hne].
        -- rewrite lookup_delete_eq, String.eqb_refl. by split.
        -- rewrite lookup_delete_ne by done. rewrite Hs.
           split; [by intros ? [= <-] | eauto].
      * rewrite Hs. split; [by intros ? [= <-] | eauto].
    + rewrite Hs. split; [by intros ? [= <-] | eauto].
Qed.

Lemma serve_all_keeps_escalation requests :
  ∀ (sessions : gmap string CallSession.t) call_sid session,
    sessions !! call_sid = Some session →
    CallSession.escalation_needed session = true →
    Forall (fun request => ends_call call_sid request = false) requests →
    ∃ session',
      serve_all ai_agent py_float twilio_phone RESTAURANT_INFO requests
                sessions !! call_sid = Some session'
      ∧ CallSession.escalation_needed session' = true.
Proof.
  induction requests as [|request requests IH];
    intros sessions call_sid session Hs Hesc Hlive; simpl.
  - eauto.
  - apply Forall_cons in Hlive as [Hrequest Hlive].
    destruct (serve_step request sessions call_sid session Hs Hesc)
      as [Hflag Hpresent].
    destruct (Hpresent Hrequest) as [session' Hs'].
    eapply IH; eauto.
Qed.
End Monotonic.

(** C2: the escalation flag of a call session is monotonic.  It is false
    in a new session; raising it is idempotent; [get_ai_response] never
    lowers it; no request served by the application leaves a session with
    a raised flag registered with the flag lowered; and over any sequence
    of requests that does not end the call the session stays registered
    with the flag raised. *)
Theorem session_escalation_monotonic ai_agent py_float twilio_phone
    RESTAURANT_INFO :
  (∀ call_sid,
      CallSession.escalation_needed (CallSession.init call_sid) = false)
  ∧ (∀ session,
        CallSession.escalation_needed (CallSession.mark_escalation session)
        = true
        ∧ CallSession.mark_escalation (CallSession.mark_escalation session)
          = CallSession.mark_escalation session)
  ∧ (∀ user_message session,
        CallSession.escalation_needed session = true →
        CallSession.escalation_needed
          (get_ai_response ai_agent user_message session).2 = true)
  ∧ (∀ request (sessions : gmap string CallSession.t) call_sid session session',
        sessions !! call_sid = Some session →
        CallSession.escalation_needed session = true →
        (serve ai_agent py_float twilio_phone RESTAURANT_INFO request
               sessions).2 !! call_sid = Some session' →
        CallSession.escalation_needed session' = true)
  ∧ (∀ requests (sessions : gmap string CallSession.t) call_sid session,
        sessions !! call_sid = Some session →
        CallSession.escalation_needed session = true →
        Forall (fun request => ends_call call_sid request = false) requests →
        ∃ session',
          serve_all ai_agent py_float twilio_phone RESTAURANT_INFO requests
                    sessions !! call_sid = Some session'
          ∧ CallSession.escalation_needed session' = true).
Proof.
  split; [done|]. split; [done|].
  split; [apply get_ai_response_keeps_escalation|].
  split.
  - intros request sessions call_sid session session' Hs Hesc Hs'.
    by apply (serve_step ai_agent py_float twilio_phone RESTAURANT_INFO
                request sessions call_sid session Hs Hesc).
  - intros requests. apply serve_all_keeps_escalation.
Qed.

Lemma session_escalation_monotonic_witness :
  ∃ session',
    serve_all (RestaurantAIAgent ascii_lower sample_info) decimal_float None
      sample_info
      [SpeechRequest (speech_form "CA1" "What time do you open?" "0.9");
       SpeechRequest (speech_form "CA1" "mumble" "0.2");
       StatusRequest (status_form "CA1" "in-progress")]
      {[ "CA1" := CallSession.mark_escalation (CallSession.init "CA1") ]}
      !! "CA1" = Some session'
    ∧ CallSession.escalation_needed session' = true.
Proof.
  apply (proj2 (proj2 (proj2 (proj2
           (session_escalation_monotonic
              (RestaurantAIAgent ascii_lower sample_info) decimal_float None
              sample_info)))))
    with (session := CallSession.mark_escalation (CallSession.init "CA1")).
  - apply lookup_singleton_eq.
  - reflexivity.
  - repeat constructor.
Defined.

(** ** Turns of the conversation *)

(** C5: a speech result with non-empty text and confidence at least 0.5
    whose analysis does not escalate appends exactly two turns to the
    history of the call, the user turn with the recognized text and then
    the assistant turn with the generated reply; a speech result with
    empty text or confidence below 0.5 leaves the history as it is. *)
Theorem speech_turn_history lower restaurant_info py_float twilio_phone
    RESTAURANT_INFO form_data (sessions : gmap string CallSession.t) :
  let call_sid := dict_get form_data "CallSid" EmptyString in
  let speech_result := dict_get form_data "SpeechResult" EmptyString in
  let confidence := dict_get form_data "Confidence" "0.0" in
  let analysis := analyze_intent lower speech_result in
  let before :=
    CallSession.conversation_history (session_of sessions call_sid) in
  let reply :=
    generate_response lower restaurant_info speech_result before
                      (Some analysis) in
  let outcome :=
    handle_twilio_speech_webhook (RestaurantAIAgent lower restaurant_info)
      py_float twilio_phone RESTAURANT_INFO form_data sessions in
  let after :=
    CallSession.conversation_history (session_of outcome.2 call_sid) in
  (speech_result ≠ EmptyString →
   (∃ c, py_float confidence = Ok c ∧ float_le half c = true) →
   escalation_needed analysis = false →
   after = (before ++ [ {| role := "user"; content := speech_result |};
                        {| role := "assistant"; content := reply |} ])%list
   ∧ length after = length before + 2)
  ∧ (speech_result = EmptyString
     ∨ (∃ c, py_float confidence = Ok c ∧ float_lt c half = true) →
     after = before).
Proof.
  intros call_sid speech_result confidence analysis before reply outcome after.
  split.
  - intros Htext (c & Hconf & Hle) Hesc.
    destruct (speech_usable (RestaurantAIAgent lower restaurant_info) py_float
                twilio_phone RESTAURANT_INFO form_data sessions c Htext Hconf
                (float_le_half_not_lt c Hle)) as (ai_response & _ & Hhandle).
    fold call_sid speech_result in Hhandle.
    rewrite get_ai_response_agent in Hhandle. fold analysis in Hhandle.
    rewrite Hesc in Hhandle. simpl in Hhandle.
    assert (after
            = (before ++ [ {| role := "user"; content := speech_result |};
                           {| role := "assistant"; content := reply |} ])%list)
      as Hafter.
    { unfold after, outcome. rewrite Hhandle.
      destruct (CallSession.escalation_needed (session_of sessions call_sid));
        simpl; rewrite session_of_insert; simpl; by rewrite <- app_assoc. }
    split; [done|]. rewrite Hafter, length_app. simpl. lia.
  - intros Hunclear. unfold after, outcome.
    rewrite (speech_unclear _ py_float twilio_phone RESTAURANT_INFO form_data
               sessions Hunclear).
    simpl. fold call_sid. by rewrite session_of_insert.
Qed.

Lemma speech_turn_history_witness :
  CallSession.conversation_history
    (session_of
       (handle_twilio_speech_webhook
          (RestaurantAIAgent ascii_lower sample_info) decimal_float None
          sample_info (speech_form "CA1" "What time do you open?" "0.9") ∅).2
       "CA1")
  = [ {| role := "user"; content := "What time do you open?" |};
      {| role := "assistant";
         content := "We are open from 10 am to 10 pm daily." |} ].
Proof.
  refine (proj1 (proj1 (speech_turn_history ascii_lower sample_info
                          decimal_float None sample_info
                          (speech_form "CA1" "What time do you open?" "0.9") ∅)
                   _ _ _)).
  - vm_compute. discriminate.
  - exists (Ffinite (9 # 10)). split; vm_compute; reflexivity.
  - vm_compute. reflexivity.
Defined.

(** C6: a speech result with empty text or with confidence below 0.5 is
    answered with the request to repeat: the TwiML says ["I'm sorry, I
    couldn't hear that clearly. Could you please repeat?"] and then
    gathers speech again at ["/api/webhook/twilio/speech"], with nothing
    else in it (no dial, no hangup).  The session is left as it was: a
    registered session is not touched (the registry is unchanged), a call
    without a session gets a new, empty one, and in both cases the
    history, the escalation flag and the summary of the call read as
    before; no other call is affected. *)
Theorem unclear_speech_leaves_session ai_agent py_float twilio_phone
    RESTAURANT_INFO form_data (sessions : gmap string CallSession.t) :
  let call_sid := dict_get form_data "CallSid" EmptyString in
  let speech_result := dict_get form_data "SpeechResult" EmptyString in
  let confidence := dict_get form_data "Confidence" "0.0" in
  let outcome :=
    handle_twilio_speech_webhook ai_agent py_float twilio_phone
      RESTAURANT_INFO form_data sessions in
  speech_result = EmptyString
  ∨ (∃ c, py_float confidence = Ok c ∧ float_lt c half = true) →
  outcome.1 = Ok (XmlResponse create_unclear_response)
  ∧ (∃ twiml,
       outcome.1 = Ok (XmlResponse twiml)
       ∧ twiml
         = [Say "I'm sorry, I couldn't hear that clearly. Could you please repeat?";
            Gather "/api/webhook/twilio/speech"]
       ∧ Say "I'm sorry, I couldn't hear that clearly. Could you please repeat?"
         ∈ twiml
       ∧ Gather "/api/webhook/twilio/speech" ∈ twiml
       ∧ (∀ caller_id number, Dial caller_id number ∉ twiml)
       ∧ Hangup ∉ twiml)
  ∧ (∀ session, sessions !! call_sid = Some session → outcome.2 = sessions)
  ∧ (sessions !! call_sid = None →
     outcome.2 = <[call_sid := CallSession.init call_sid]> sessions)
  ∧ CallSession.conversation_history (session_of outcome.2 call_sid)
    = CallSession.conversation_history (session_of sessions call_sid)
  ∧ CallSession.escalation_needed (session_of outcome.2 call_sid)
    = CallSession.escalation_needed (session_of sessions call_sid)
  ∧ CallSession.call_summary (session_of outcome.2 call_sid)
    = CallSession.call_summary (session_of sessions call_sid)
  ∧ (∀ other, other ≠ call_sid → outcome.2 !! other = sessions !! other).
Proof.
  intros call_sid speech_result confidence outcome Hunclear.
  unfold outcome.
  rewrite (speech_unclear ai_agent py_float twilio_phone RESTAURANT_INFO
             form_data sessions Hunclear).
  fold call_sid. simpl. rewrite session_of_insert.
  split; [reflexivity|]. split.
  { exists create_unclear_response. unfold create_unclear_response.
    split; [reflexivity|]. split; [reflexivity|].
    split; [elem_of_literal|]. split; [elem_of_literal|].
    split; [intros caller_id number|]; not_elem_of_literal. }
  repeat split.
  - intros session Hs. by apply insert_session_of with session.
  - intros Hs. unfold session_of. by rewrite Hs.
  - intros other Hne. by rewrite lookup_insert_ne.
Qed.

Lemma unclear_speech_leaves_session_witness :
  (handle_twilio_speech_webhook (RestaurantAIAgent ascii_lower sample_info)
     decimal_float None sample_info
     (speech_form "CA1" "I want to book a table" "0.3") ∅).1
  = Ok (XmlResponse create_unclear_response).
Proof.
  refine (proj1 (unclear_speech_leaves_session
                   (RestaurantAIAgent ascii_lower sample_info) decimal_float
                   None sample_info
                   (speech_form "CA1" "I want to book a table" "0.3") ∅ _)).
  right. exists (Ffinite (3 # 10)). split; vm_compute; reflexivity.
Defined.

(** ** Escalation *)

Lemma reservation_escalates lower user_message :
  substring_of "reservation" (lower user_message) →
  escalation_needed (analyze_intent lower user_message) = true.
Proof.
  intros Hsub. apply escalation_needed_keywords.
  exists reservation_request,
    ["reservation"; "book"; "table"; "seat"; "reserve"], "reservation".
  repeat split; [| |elem_of_literal|done];
    [unfold escalation_intents | unfold intent_keywords]; elem_of_literal.
Qed.

(** With ASCII lower-casing, an utterance that contains ["reservation"]
    in any letter case escalates. *)
Lemma ascii_lower_append s1 s2 :
  ascii_lower (s1 ++ s2) = ascii_lower s1 ++ ascii_lower s2.
Proof.
  induction s1 as [|c s1 IH]; [done|].
  rewrite !append_cons. simpl. by rewrite IH, append_cons.
Qed.

Lemma reservation_utterance_escalates word user_message :
  ascii_lower word = "reservation" →
  substring_of word user_message →
  escalation_needed (analyze_intent ascii_lower user_message) = true.
Proof.
  intros Hword (pre & post & ->). apply reservation_escalates.
  exists (ascii_lower pre), (ascii_lower post).
  by rewrite !ascii_lower_append, Hword.
Qed.

(** C7: a speech result with non-empty text and confidence not below 0.5
    whose analysis asks for escalation (as every utterance containing
    ["reservation"] does) is answered with the transfer to the staff, not
    with the speak-and-listen reply; the session is marked escalated and
    gets a summary whose [final_intent] is ["Escalated to human"] and
    whose [conversation_length] is the length of the history. *)
Theorem escalating_speech lower restaurant_info py_float twilio_phone
    RESTAURANT_INFO form_data (sessions : gmap string CallSession.t) c :
  let call_sid := dict_get form_data "CallSid" EmptyString in
  let speech_result := dict_get form_data "SpeechResult" EmptyString in
  let confidence := dict_get form_data "Confidence" "0.0" in
  let analysis := analyze_intent lower speech_result in
  let outcome :=
    handle_twilio_speech_webhook (RestaurantAIAgent lower restaurant_info)
      py_float twilio_phone RESTAURANT_INFO form_data sessions in
  speech_result ≠ EmptyString →
  py_float confidence = Ok c →
  float_lt c half = false →
  (substring_of "reservation" (lower speech_result) →
   escalation_needed analysis = true)
  ∧ (escalation_needed analysis = true →
     ∃ twiml session' summary,
       outcome.1 = Ok (XmlResponse twiml)
       ∧ twiml = create_escalation_response twilio_phone (phone RESTAURANT_INFO)
       ∧ Dial twilio_phone (phone RESTAURANT_INFO) ∈ twiml
       ∧ (∀ ai_response sid, twiml ≠ create_speech_response ai_response sid)
       ∧ outcome.2 !! call_sid = Some session'
       ∧ CallSession.escalation_needed session' = true
       ∧ CallSession.call_summary session' = Some summary
       ∧ final_intent summary = "Escalated to human"
       ∧ conversation_length summary
         = length (CallSession.conversation_history session')
       ∧ summary_call_sid summary = call_sid).
Proof.
  intros call_sid speech_result confidence analysis outcome Htext Hconf Hlt.
  split; [apply reservation_escalates|]. intros Hesc.
  destruct (speech_usable (RestaurantAIAgent lower restaurant_info) py_float
              twilio_phone RESTAURANT_INFO form_data sessions c Htext Hconf Hlt)
    as (ai_response & _ & Hhandle).
  fold call_sid speech_result in Hhandle.
  rewrite get_ai_response_agent in Hhandle. fold analysis in Hhandle.
  rewrite Hesc in Hhandle. simpl in Hhandle.
  unfold outcome. rewrite Hhandle. simpl.
  eexists _, _, _. split; [done|]. split; [done|].
  split; [unfold create_escalation_response; elem_of_literal|].
  split; [done|]. split; [apply lookup_insert_eq|]. done.
Qed.

Lemma escalating_speech_witness :
  ∃ session' summary,
    (handle_twilio_speech_webhook (RestaurantAIAgent ascii_lower sample_info)
       decimal_float None sample_info
       (speech_form "CA1" "I'd like to make a reservation for two" "0.9") ∅).2
      !! "CA1" = Some session'
    ∧ CallSession.call_summary session' = Some summary
    ∧ final_intent summary = "Escalated to human".
Proof.
  destruct (escalating_speech ascii_lower sample_info decimal_float None
              sample_info
              (speech_form "CA1" "I'd like to make a reservation for two" "0.9")
              ∅ (Ffinite (9 # 10)))
    as [Hreservation Hescalate];
    [vm_compute; discriminate | vm_compute; reflexivity
    | vm_compute; reflexivity |].
  destruct Hescalate as (twiml & session' & summary & _ & _ & _ & _ & Hs
                         & _ & Hsummary & Hfinal & _).
  - apply Hreservation, contains_spec. vm_compute. reflexivity.
  - exists session', summary. split; [exact Hs|]. split; assumption.
Defined.

(** ** End of a call *)

(** C9: a status request with status [completed], [busy], [failed] or
    [no-answer] succeeds; when the call has a session its final summary is
    built and the session is removed, so that the next [get_session] for
    the call creates a new session with empty history and the flag
    lowered; when the call has no session the registry is left as it is. *)
Theorem terminal_status_destroys_session form_data
    (sessions : gmap string CallSession.t) :
  let call_sid := dict_get form_data "CallSid" EmptyString in
  let status := dict_get form_data "CallStatus" EmptyString in
  let from_number := dict_get form_data "From" EmptyString in
  let outcome := handle_twilio_status_webhook form_data sessions in
  status ∈ ["completed"; "busy"; "failed"; "no-answer"] →
  outcome.1.1 = Ok (PlainResponse "OK")
  ∧ (∀ session,
        sessions !! call_sid = Some session →
        outcome.1.2
        = Some {| final_call_sid := call_sid;
                  final_caller_phone := from_number;
                  call_status := status;
                  final_conversation_length :=
                    length (CallSession.conversation_history session);
                  escalated := CallSession.escalation_needed session;
                  summary := CallSession.call_summary session |}
        ∧ outcome.2 = delete call_sid sessions
        ∧ outcome.2 !! call_sid = None
        ∧ get_session call_sid outcome.2
          = (CallSession.init call_sid,
             <[call_sid := CallSession.init call_sid]> outcome.2)
        ∧ CallSession.conversation_history (get_session call_sid outcome.2).1
          = []
        ∧ CallSession.escalation_needed (get_session call_sid outcome.2).1
          = false)
  ∧ (sessions !! call_sid = None →
     outcome.1.2 = None ∧ outcome.2 = sessions).
Proof.
  intros call_sid status from_number outcome Hterminal.
  unfold outcome, handle_twilio_status_webhook.
  fold call_sid status from_number.
  rewrite bool_decide_eq_true_2 by done.
  split; [by destruct (sessions !! call_sid)|]. split.
  - intros session ->. simpl. unfold get_session.
    rewrite lookup_delete_eq. done.
  - by intros ->.
Qed.

Lemma terminal_status_destroys_session_witness :
  (handle_twilio_status_webhook (status_form "CA1" "completed")
     {[ "CA1" := CallSession.mark_escalation (CallSession.init "CA1") ]}).2
    !! "CA1" = None.
Proof.
  refine (proj1 (proj2 (proj2
            (proj1 (proj2
               (terminal_status_destroys_session
                  (status_form "CA1" "completed")
                  {[ "CA1" := CallSession.mark_escalation
                                (CallSession.init "CA1") ]} _))
               (CallSession.mark_escalation (CallSession.init "CA1")) _)))).
  - vm_compute. elem_of_literal.
  - vm_compute. reflexivity.
Defined.

(** ** Failures *)

Section Failures.
Variable ai_agent : AgentOps.
Variable py_float : string -> Result pyfloat.
Variable twilio_phone : option string.
Variable RESTAURANT_INFO : RestaurantInfo.

(** When the classifier or the generator raises on a usable speech
    result of a call that is not escalated yet, the caller hears the
    apology, the session is left as it was, and the handler goes on
    listening: the flag is not raised and nothing is dialled. *)
Lemma speech_reply_failure form_data (sessions : gmap string CallSession.t) c :
  let call_sid := dict_get form_data "CallSid" EmptyString in
  let speech_result := dict_get form_data "SpeechResult" EmptyString in
  let confidence := dict_get form_data "Confidence" "0.0" in
  let session := session_of sessions call_sid in
  speech_result ≠ EmptyString →
  py_float confidence = Ok c →
  float_lt c half = false →
  CallSession.escalation_needed session = false →
  (∃ e, agent_analyze_intent ai_agent speech_result = Raise e)
  ∨ (∃ analysis e,
        agent_analyze_intent ai_agent speech_result = Ok analysis
        ∧ agent_generate_response ai_agent speech_result
            (CallSession.conversation_history session) (Some analysis)
          = Raise e) →
  handle_twilio_speech_webhook ai_agent py_float twilio_phone RESTAURANT_INFO
    form_data sessions
  = (Ok (XmlResponse (create_speech_response apology call_sid)),
     <[call_sid := session]> sessions).
Proof.
  intros call_sid speech_result confidence session Htext Hconf Hlt Hesc Hfail.
  destruct (speech_usable ai_agent py_float twilio_phone RESTAURANT_INFO
              form_data sessions c Htext Hconf Hlt)
    as (ai_response & Hreply & Hhandle).
  fold call_sid speech_result session in Hreply, Hhandle.
  rewrite (get_ai_response_failure ai_agent speech_result session Hfail)
    in Hreply, Hhandle.
  simpl in Hreply, Hhandle. injection Hreply as <-.
  by rewrite Hesc in Hhandle.
Qed.

(** The voice webhook always answers with the greeting. *)
Lemma voice_webhook_responds form_data (sessions : gmap string CallSession.t) :
  (handle_twilio_voice_webhook twilio_phone RESTAURANT_INFO form_data
     sessions).1
  = Ok (XmlResponse (create_greeting_response (name RESTAURANT_INFO))).
Proof.
  unfold handle_twilio_voice_webhook, voice_webhook_body.
  rewrite get_session_spec, twiml_greeting. done.
Qed.

(** The status webhook always answers [OK]. *)
Lemma status_webhook_responds form_data (sessions : gmap string CallSession.t) :
  (handle_twilio_status_webhook form_data sessions).1.1
  = Ok (PlainResponse "OK").
Proof.
  unfold handle_twilio_status_webhook.
  case_bool_decide; [|done].
  by destruct (sessions !! dict_get form_data "CallSid" EmptyString).
Qed.

(** The speech webhook answers unless [float] raises on the confidence
    field of a request with non-empty text. *)
Lemma speech_webhook_responds form_data (sessions : gmap string CallSession.t) :
  let speech_result := dict_get form_data "SpeechResult" EmptyString in
  let confidence := dict_get form_data "Confidence" "0.0" in
  speech_result = EmptyString ∨ (∃ c, py_float confidence = Ok c) →
  ∃ twiml,
    (handle_twilio_speech_webhook ai_agent py_float twilio_phone
       RESTAURANT_INFO form_data sessions).1 = Ok (XmlResponse twiml).
Proof.
  intros speech_result confidence Hok.
  destruct (String.eqb_spec speech_result EmptyString) as [Hempty|Htext].
  { rewrite speech_unclear by auto. simpl. eauto. }
  destruct Hok as [Hempty | [c Hconf]]; [done|].
  destruct (float_lt c half) eqn:Hlt.
  { rewrite speech_unclear by eauto. simpl. eauto. }
  destruct (speech_usable ai_agent py_float twilio_phone RESTAURANT_INFO
              form_data sessions c Htext Hconf Hlt)
    as (ai_response & _ & ->).
  destruct (CallSession.escalation_needed _); simpl; eauto.
Qed.

(** No handler ever answers with [create_error_response]: no response
    of the application hangs up. *)
Lemma serve_never_hangs_up request (sessions : gmap string CallSession.t)
    twiml :
  (serve ai_agent py_float twilio_phone RESTAURANT_INFO request sessions).1
  = Ok (XmlResponse twiml) →
  Hangup ∉ twiml.
Proof.
  destruct request as [form_data|form_data|form_data]; simpl.
  - rewrite voice_webhook_responds. intros [= <-].
    unfold create_greeting_response. not_elem_of_literal.
  - unfold handle_twilio_speech_webhook. rewrite get_session_spec, twiml_unclear.
    destruct (String.eqb _ EmptyString);
      [intros [= <-]; unfold create_unclear_response; not_elem_of_literal|].
    destruct (py_float _) as [c|e]; [|done].
    destruct (float_lt c half);
      [intros [= <-]; unfold create_unclear_response; not_elem_of_literal|].
    destruct (get_ai_response _ _ _) as [[reply|e] session']; [|done].
    rewrite twiml_escalation, twiml_speech_response.
    destruct (CallSession.needs_escalation session'); intros [= <-].
    + unfold create_escalation_response. not_elem_of_literal.
    + unfold create_speech_response. not_elem_of_literal.
  - pose proof (status_webhook_responds form_data sessions) as Hstatus.
    destruct (handle_twilio_status_webhook form_data sessions) as [[r ?] ?].
    simpl in *. by rewrite Hstatus.
Qed.
End Failures.

(** C3, at a request where the generator fails: the exception is caught,
    the caller hears the apology and the request completes, but the
    handler answers with speak-and-listen and leaves the session of the
    call not escalated; the call is not transferred. *)
Theorem reply_failure_keeps_listening :
  let outcome :=
    handle_twilio_speech_webhook (agent_without_generation ascii_lower)
      decimal_float None sample_info
      (speech_form "CA1" "What time do you open?" "0.9") ∅ in
  outcome.1
  = Ok (XmlResponse
          [Say apology; Gather "/api/webhook/twilio/speech?call_sid=CA1"])
  ∧ outcome.2 = {[ "CA1" := CallSession.init "CA1" ]}
  ∧ CallSession.escalation_needed (session_of outcome.2 "CA1") = false
  ∧ outcome.1
    ≠ Ok (XmlResponse (create_escalation_response None (phone sample_info))).
Proof.
  assert (handle_twilio_speech_webhook (agent_without_generation ascii_lower)
            decimal_float None sample_info
            (speech_form "CA1" "What time do you open?" "0.9") ∅
          = (Ok (XmlResponse (create_speech_response apology "CA1")),
             <["CA1" := session_of ∅ "CA1"]> ∅)) as Hhandle.
  { apply (speech_reply_failure (agent_without_generation ascii_lower)
             decimal_float None sample_info
             (speech_form "CA1" "What time do you open?" "0.9") ∅
             (Ffinite (9 # 10)));
      [vm_compute; discriminate | vm_compute; reflexivity
      | vm_compute; reflexivity | reflexivity |].
    right. eexists _, _. split; reflexivity. }
  cbv zeta. rewrite Hhandle. simpl. rewrite session_of_insert.
  repeat split. discriminate.
Qed.

(** C4, at a speech request with a malformed confidence field: [float]
    raises [ValueError], nothing in the speech webhook catches it, and the
    handler leaves with the exception instead of a response. *)
Theorem malformed_confidence_unhandled :
  handle_twilio_speech_webhook (RestaurantAIAgent ascii_lower sample_info)
    decimal_float None sample_info (speech_form "CA1" "hello" "abc") ∅
  = (Raise (ValueError "could not convert string to float: 'abc'"),
     {[ "CA1" := CallSession.init "CA1" ]}).
Proof.
  rewrite (speech_malformed_confidence
             (RestaurantAIAgent ascii_lower sample_info) decimal_float None
             sample_info (speech_form "CA1" "hello" "abc") ∅
             (ValueError "could not convert string to float: 'abc'"));
    [reflexivity | vm_compute; discriminate | vm_compute; reflexivity].
Qed.

(** ** Scenarios *)

Example analyze_open :
  analyze_intent ascii_lower "What time do you open?"
  = {| primary_intent := hours_inquiry;
       all_detected_intents := [hours_inquiry];
       escalation_needed := false |}.
Proof. vm_compute. reflexivity. Qed.

Example analyze_reservation :
  analyze_intent ascii_lower "I'd like to make a reservation for two"
  = {| primary_intent := reservation_request;
       all_detected_intents := [reservation_request];
       escalation_needed := true |}.
Proof. vm_compute. reflexivity. Qed.

Example analyze_overlap :
  all_detected_intents (analyze_intent ascii_lower "Do you have delivery?")
  = [menu_inquiry; order_request; delivery_inquiry].
Proof. vm_compute. reflexivity. Qed.

Example decimal_float_low : decimal_float "0.3" = Ok (Ffinite (3 # 10)).
Proof. reflexivity. Qed.

Example decimal_float_malformed :
  decimal_float "abc"
  = Raise (ValueError "could not convert string to float: 'abc'").
Proof. reflexivity. Qed.

(** * Further properties of the program *)

(** ** Shape of an analysis *)

Lemma list_filter_sublist {A} (f : A → bool) (l : list A) :
  List.filter f l `sublist_of` l.
Proof.
  induction l as [|x l IH]; simpl; [constructor|].
  destruct (f x); by constructor.
Qed.

Lemma list_filter_nil {A} (f : A → bool) (l : list A) :
  List.filter f l = [] ↔ ∀ x, x ∈ l → f x = false.
Proof.
  induction l as [|x l IH]; simpl.
  - split; [|done]. intros _ x Hx. by apply elem_of_nil in Hx.
  - destruct (f x) eqn:Hfx.
    + split; [done|]. intros Hall.
      specialize (Hall x (list_elem_of_here _ _)). congruence.
    + rewrite IH. split.
      * intros Hall y [->|Hy]%elem_of_cons; auto.
      * intros Hall y Hy. by apply Hall, list_elem_of_further.
Qed.

Lemma intent_keywords_NoDup : NoDup intent_keywords.*1.
Proof.
  simpl. repeat (apply NoDup_cons; split; [not_elem_of_literal|]).
  apply NoDup_nil_2.
Qed.

Lemma general_inquiry_not_in_table : general_inquiry ∉ intent_keywords.*1.
Proof. simpl. not_elem_of_literal. Qed.

Lemma detect_intents_sublist message_lower :
  detect_intents message_lower `sublist_of` intent_keywords.*1.
Proof.
  rewrite detect_intents_spec. apply fmap_sublist, list_filter_sublist.
Qed.

Lemma primary_intent_head lower user_message :
  head (all_detected_intents (analyze_intent lower user_message))
  = Some (primary_intent (analyze_intent lower user_message)).
Proof.
  unfold analyze_intent. simpl.
  by destruct (detect_intents (lower user_message)).
Qed.

Lemma primary_intent_detected lower user_message :
  primary_intent (analyze_intent lower user_message)
  ∈ all_detected_intents (analyze_intent lower user_message).
Proof.
  pose proof (primary_intent_head lower user_message) as Hhead.
  apply head_Some in Hhead as [rest ->]. apply list_elem_of_here.
Qed.

(** A table intent is detected exactly when its entry matches. *)
Lemma table_intent_detected lower user_message intent :
  intent ≠ general_inquiry →
  intent ∈ all_detected_intents (analyze_intent lower user_message)
  ↔ ∃ keywords, (intent, keywords) ∈ intent_keywords
                ∧ matches (lower user_message) keywords = true.
Proof.
  intros Hne. rewrite all_detected_intents_eq, <- detect_intents_elem.
  destruct (detect_intents (lower user_message)) as [|first rest]; [|done].
  rewrite list_elem_of_singleton, elem_of_nil. by split.
Qed.

(** X1: the detected intents of an analysis start with the primary
    intent, hold no intent twice and follow the order of the keyword
    table, with [general_inquiry] only ever on its own. *)
Theorem analysis_well_formed lower user_message :
  let analysis := analyze_intent lower user_message in
  head (all_detected_intents analysis) = Some (primary_intent analysis)
  ∧ NoDup (all_detected_intents analysis)
  ∧ all_detected_intents analysis
      `sublist_of` (intent_keywords.*1 ++ [general_inquiry])%list
  ∧ (general_inquiry ∈ all_detected_intents analysis →
     all_detected_intents analysis = [general_inquiry]).
Proof.
  intros analysis. split; [apply primary_intent_head|].
  unfold analysis. rewrite all_detected_intents_eq.
  pose proof (detect_intents_sublist (lower user_message)) as Hsub.
  pose proof (general_inquiry_not_detected (lower user_message)) as Hgen.
  destruct (detect_intents (lower user_message)) as [|intent rest].
  - split; [apply NoDup_singleton|].
    split; [|done]. apply sublist_inserts_l. by apply sublist_skip.
  - split; [|split; [|done]].
    + by apply (sublist_NoDup _ _ intent_keywords_NoDup).
    + by apply sublist_inserts_r.
Qed.

(** X2: an intent of the table is detected exactly when one of its
    keywords occurs in the lower-cased utterance, and [general_inquiry]
    exactly when no keyword of the table does. *)
Theorem detected_intent_iff lower user_message intent :
  intent ∈ all_detected_intents (analyze_intent lower user_message)
  ↔ (∃ keywords keyword,
        (intent, keywords) ∈ intent_keywords
        ∧ keyword ∈ keywords
        ∧ substring_of keyword (lower user_message))
    ∨ (intent = general_inquiry
       ∧ ∀ other keywords keyword,
           (other, keywords) ∈ intent_keywords → keyword ∈ keywords →
           ¬ substring_of keyword (lower user_message)).
Proof.
  rewrite all_detected_intents_eq.
  pose proof (detect_intents_elem (lower user_message)) as Helem.
  destruct (detect_intents (lower user_message)) as [|first rest] eqn:Hd.
  - pose proof (detect_intents_nil _ Hd) as Hnone.
    rewrite list_elem_of_singleton. split.
    + intros ->. right. split; [done|].
      intros other keywords keyword Hentry Hkeyword.
      by apply (proj1 (not_matches_spec _ _) (Hnone other keywords Hentry)).
    + intros [(keywords & keyword & Hentry & Hkeyword & Hsub) | [-> _]]; [|done].
      by destruct (proj1 (not_matches_spec _ _) (Hnone intent keywords Hentry)
                     keyword Hkeyword).
  - rewrite Helem. split.
    + intros (keywords & Hentry & (keyword & Hkeyword & Hsub)%matches_spec).
      left. by exists keywords, keyword.
    + intros [(keywords & keyword & Hentry & Hkeyword & Hsub) | [-> Hnone]].
      * exists keywords. split; [done|]. apply matches_spec. eauto.
      * assert (first ∈ first :: rest) as Hfirst by apply list_elem_of_here.
        apply Helem in Hfirst
          as (keywords & Hentry & (keyword & Hkeyword & Hsub)%matches_spec).
        by destruct (Hnone first keywords keyword).
Qed.

(** The primary intent is the first matching entry of the table. *)
Lemma primary_intent_position lower user_message before intent keywords after :
  intent_keywords = (before ++ (intent, keywords) :: after)%list →
  primary_intent (analyze_intent lower user_message) = intent
  ↔ List.filter (fun entry : Intent * list string =>
                   matches (lower user_message) entry.2) before = []
    ∧ matches (lower user_message) keywords = true.
Proof.
  intros Htable.
  pose proof intent_keywords_NoDup as Hnd.
  pose proof general_inquiry_not_in_table as Hgen.
  rewrite Htable, fmap_app, fmap_cons in Hnd, Hgen. simpl in Hnd, Hgen.
  apply NoDup_app in Hnd as (_ & Hbefore & [Hafter _]%NoDup_cons).
  set (f := fun entry : Intent * list string =>
              matches (lower user_message) entry.2).
  unfold analyze_intent. simpl.
  rewrite detect_intents_spec, Htable, List.filter_app. fold f. simpl.
  change (f (intent, keywords)) with (matches (lower user_message) keywords).
  rewrite fmap_app.
  destruct (List.filter f before) as [|[other keywords'] matched] eqn:Hmatched;
    simpl.
  - destruct (matches (lower user_message) keywords); simpl; [done|].
    split; [|by intros [_ ?]]. intros Hprimary. exfalso.
    destruct ((List.filter f after).*1) as [|other rest] eqn:Hrest;
      simpl in Hprimary.
    + subst intent. apply Hgen, elem_of_app. right. apply list_elem_of_here.
    + subst other. apply Hafter.
      apply (elem_of_sublist ((List.filter f after).*1));
        [rewrite Hrest; apply list_elem_of_here|].
      apply fmap_sublist, list_filter_sublist.
  - split; [|by intros [? _]]. intros ->. exfalso.
    apply (Hbefore intent); [|apply list_elem_of_here].
    apply (elem_of_sublist ((List.filter f before).*1));
      [rewrite Hmatched; apply list_elem_of_here|].
    apply fmap_sublist, list_filter_sublist.
Qed.

Lemma no_match_before (lower : string → string) (user_message : string)
    (before : list (Intent * list string)) :
  List.filter (fun entry : Intent * list string =>
                 matches (lower user_message) entry.2) before = []
  ↔ ∀ other keywords keyword,
      (other, keywords) ∈ before → keyword ∈ keywords →
      ¬ substring_of keyword (lower user_message).
Proof.
  rewrite list_filter_nil. split.
  - intros Hnone other keywords keyword Hentry.
    by apply (proj1 (not_matches_spec _ _) (Hnone _ Hentry)).
  - intros Hnone [other keywords] Hentry. apply not_matches_spec. eauto.
Qed.

(** X3: the primary intent is the first entry of the keyword table with a
    keyword in the lower-cased utterance: for every entry of the table,
    it is the primary intent exactly when one of its keywords occurs and
    no keyword of an earlier entry does. *)
Theorem primary_intent_first_match lower user_message before intent keywords
    after :
  intent_keywords = (before ++ (intent, keywords) :: after)%list →
  primary_intent (analyze_intent lower user_message) = intent
  ↔ (∀ other keywords' keyword,
        (other, keywords') ∈ before → keyword ∈ keywords' →
        ¬ substring_of keyword (lower user_message))
    ∧ (∃ keyword,
          keyword ∈ keywords ∧ substring_of keyword (lower user_message)).
Proof.
  intros Htable.
  rewrite (primary_intent_position lower user_message before intent keywords
             after Htable).
  by rewrite no_match_before, matches_spec.
Qed.

Lemma primary_intent_first_match_witness :
  primary_intent
    (analyze_intent ascii_lower "Can I book for Friday evening, thanks")
  = reservation_request.
Proof.
  apply (primary_intent_first_match ascii_lower
           "Can I book for Friday evening, thanks"
           (take 5 intent_keywords) reservation_request
           ["reservation"; "book"; "table"; "seat"; "reserve"]
           (drop 6 intent_keywords));
    [reflexivity|].
  split.
  - intros other keywords' keyword Hentry Hkeyword.
    apply (proj1 (not_matches_spec _ keywords')); [|done].
    simpl in Hentry.
    repeat (apply elem_of_cons in Hentry as [[= -> ->]|Hentry];
            [vm_compute; reflexivity|]).
    by apply elem_of_nil in Hentry.
  - exists "book". split; [elem_of_literal|].
    apply contains_spec. vm_compute. reflexivity.
Defined.

(** ** Utterances and their parts *)

Lemma string_append_assoc s1 s2 s3 : (s1 ++ s2) ++ s3 = s1 ++ s2 ++ s3.
Proof.
  induction s1 as [|c s1 IH]; [done|].
  by rewrite !append_cons, IH.
Qed.

Lemma substring_of_trans s1 s2 s3 :
  substring_of s1 s2 → substring_of s2 s3 → substring_of s1 s3.
Proof.
  intros (pre1 & post1 & ->) (pre2 & post2 & ->).
  exists (pre2 ++ pre1), (post1 ++ post2).
  by rewrite !string_append_assoc.
Qed.

(** X4: classification is monotone in the utterance.  When the
    lower-casing of one utterance occurs inside the lower-casing of
    another, every table intent detected for the first is detected for
    the second, and if the first escalates so does the second. *)
Theorem detection_monotone lower part whole :
  substring_of (lower part) (lower whole) →
  (∀ intent,
      intent ≠ general_inquiry →
      intent ∈ all_detected_intents (analyze_intent lower part) →
      intent ∈ all_detected_intents (analyze_intent lower whole))
  ∧ (escalation_needed (analyze_intent lower part) = true →
     escalation_needed (analyze_intent lower whole) = true).
Proof.
  intros Hsub.
  assert (∀ intent,
            intent ≠ general_inquiry →
            intent ∈ all_detected_intents (analyze_intent lower part) →
            intent ∈ all_detected_intents (analyze_intent lower whole))
    as Hmono.
  { intros intent Hne.
    rewrite !table_intent_detected by done.
    intros (keywords & Hentry & (keyword & Hkeyword & Hin)%matches_spec).
    exists keywords. split; [done|]. apply matches_spec.
    eauto using substring_of_trans. }
  split; [done|].
  rewrite !escalation_flag_spec.
  intros (intent & Hin & Hesc). exists intent. split; [|done].
  apply Hmono; [|done]. intros ->.
  unfold escalation_intents in Hesc. revert Hesc. not_elem_of_literal.
Qed.

Lemma detection_monotone_witness :
  escalation_needed
    (analyze_intent ascii_lower "Hello, is the manager in today?") = true.
Proof.
  refine (proj2 (detection_monotone ascii_lower "MANAGER"
                   "Hello, is the manager in today?" _) _).
  - apply contains_spec. vm_compute. reflexivity.
  - vm_compute. reflexivity.
Defined.

(** X5: ["delivery"], ["takeout"] and ["take out"] are keywords of both
    [order_request] and [delivery_inquiry].  An utterance with one of
    them is detected as both, escalates, and never has [delivery_inquiry]
    as primary intent; [delivery_inquiry] is primary only for an utterance
    with ["pickup"], ["pick up"] or ["carryout"]. *)
Theorem delivery_keywords_overlap lower user_message :
  let analysis := analyze_intent lower user_message in
  (∀ keyword,
      keyword ∈ ["delivery"; "takeout"; "take out"] →
      substring_of keyword (lower user_message) →
      order_request ∈ all_detected_intents analysis
      ∧ delivery_inquiry ∈ all_detected_intents analysis
      ∧ escalation_needed analysis = true
      ∧ primary_intent analysis ≠ delivery_inquiry)
  ∧ (primary_intent analysis = delivery_inquiry →
     ∃ keyword,
       keyword ∈ ["pickup"; "pick up"; "carryout"]
       ∧ substring_of keyword (lower user_message)).
Proof.
  intros analysis.
  assert (∀ keyword,
            keyword ∈ ["delivery"; "takeout"; "take out"] →
            substring_of keyword (lower user_message) →
            order_request ∈ all_detected_intents analysis
            ∧ delivery_inquiry ∈ all_detected_intents analysis
            ∧ escalation_needed analysis = true
            ∧ primary_intent analysis ≠ delivery_inquiry) as Hoverlap.
  { intros keyword Hkeyword Hsub.
    assert (order_request ∈ all_detected_intents analysis) as Horder.
    { apply table_intent_detected; [done|].
      exists ["order"; "place"; "buy"; "get"; "delivery"; "takeout"; "take out"].
      split; [unfold intent_keywords; elem_of_literal|].
      apply matches_spec. exists keyword. split; [|done].
      repeat (apply elem_of_cons in Hkeyword as [->|Hkeyword];
              [elem_of_literal|]).
      by apply elem_of_nil in Hkeyword. }
    split; [done|]. split; [|split].
    - apply table_intent_detected; [done|].
      exists ["delivery"; "takeout"; "take out"; "pickup"; "pick up"; "carryout"].
      split; [unfold intent_keywords; elem_of_literal|].
      apply matches_spec. exists keyword. split; [|done].
      repeat (apply elem_of_cons in Hkeyword as [->|Hkeyword];
              [elem_of_literal|]).
      by apply elem_of_nil in Hkeyword.
    - apply escalation_flag_spec. exists order_request.
      split; [done | unfold escalation_intents; elem_of_literal].
    - intros Hprimary.
      apply (primary_intent_position lower user_message
               (take 7 intent_keywords) delivery_inquiry
               ["delivery"; "takeout"; "take out"; "pickup"; "pick up";
                "carryout"]
               (drop 8 intent_keywords) eq_refl) in Hprimary as [Hnone _].
      apply (proj1 (no_match_before _ _ _) Hnone order_request
               ["order"; "place"; "buy"; "get"; "delivery"; "takeout";
                "take out"] keyword); [simpl; elem_of_literal | | done].
      repeat (apply elem_of_cons in Hkeyword as [->|Hkeyword];
              [elem_of_literal|]).
      by apply elem_of_nil in Hkeyword. }
  split; [done|]. intros Hprimary.
  pose proof Hprimary as Hposition.
  apply (primary_intent_position lower user_message
           (take 7 intent_keywords) delivery_inquiry
           ["delivery"; "takeout"; "take out"; "pickup"; "pick up"; "carryout"]
           (drop 8 intent_keywords) eq_refl) in Hposition
    as [_ (keyword & Hkeyword & Hsub)%matches_spec].
  exists keyword. split; [|done].
  assert (keyword ∉ ["delivery"; "takeout"; "take out"]) as Hnot.
  { intros Hshared.
    destruct (Hoverlap keyword Hshared Hsub) as (_ & _ & _ & Hne).
    by apply Hne. }
  repeat (apply elem_of_cons in Hkeyword as [->|Hkeyword];
          [first [ exfalso; apply Hnot; solve [elem_of_literal]
                 | solve [elem_of_literal] ]|]).
  by apply elem_of_nil in Hkeyword.
Qed.

Lemma delivery_keywords_overlap_witness :
  primary_intent (analyze_intent ascii_lower "Is takeout possible?")
  ≠ delivery_inquiry.
Proof.
  refine (proj2 (proj2 (proj2
            (proj1 (delivery_keywords_overlap ascii_lower
                      "Is takeout possible?") "takeout" _ _)))).
  - elem_of_literal.
  - apply contains_spec. vm_compute. reflexivity.
Defined.

(** X6: when the primary intent of an utterance is one of the four
    escalating intents ([order_request], [reservation_request],
    [complaint], [contact_staff]), its analysis asks for escalation and
    [generate_response] answers with one of its two fixed staff sentences:
    ["I'll connect you with our staff who can better assist you."] for
    [contact_staff], ["I'd be happy to connect you with our staff who can
    help you with that."] for the other three.  Only this direction is
    stated: a reply of another intent may also mention the staff. *)
Theorem staff_reply_escalates lower restaurant_info user_message
    conversation_history :
  let analysis := analyze_intent lower user_message in
  let reply :=
    generate_response lower restaurant_info user_message conversation_history
      (Some analysis) in
  primary_intent analysis
    ∈ [order_request; reservation_request; complaint; contact_staff] →
  escalation_needed analysis = true
  ∧ reply
    ∈ ["I'd be happy to connect you with our staff who can help you with that.";
       "I'll connect you with our staff who can better assist you."]
  ∧ (primary_intent analysis = contact_staff →
     reply = "I'll connect you with our staff who can better assist you.")
  ∧ (primary_intent analysis ≠ contact_staff →
     reply
     = "I'd be happy to connect you with our staff who can help you with that.").
Proof.
  intros analysis reply Hprimary. split.
  { apply escalation_flag_spec. exists (primary_intent analysis).
    split; [|done].
    apply primary_intent_detected. }
  unfold reply, generate_response. fold analysis.
  repeat (apply elem_of_cons in Hprimary as [->|Hprimary];
          [split; [elem_of_literal|split; [intros [=]|intros Hne]];
           first [reflexivity | by destruct Hne]|]).
  by apply elem_of_nil in Hprimary.
Qed.

Lemma staff_reply_escalates_witness :
  escalation_needed
    (analyze_intent ascii_lower "There is a problem with my bill") = true.
Proof.
  refine (proj1 (staff_reply_escalates ascii_lower sample_info
                   "There is a problem with my bill" [] _)).
  vm_compute. elem_of_literal.
Defined.

(** The other direction fails: the menu reply sends the caller to the
    staff although the analysis does not escalate. *)
Example menu_reply_mentions_staff :
  escalation_needed (analyze_intent ascii_lower "What is on the menu?") = false
  ∧ substring_of "speak with our staff"
      (generate_response ascii_lower sample_info "What is on the menu?" []
         (Some (analyze_intent ascii_lower "What is on the menu?"))).
Proof.
  split; [vm_compute; reflexivity|].
  apply contains_spec. vm_compute. reflexivity.
Qed.

Lemma mock_fallback_replies_witness :
  generate_response ascii_lower sample_info "Is there parking nearby" []
    (Some (analyze_intent ascii_lower "Is there parking nearby"))
  ∈ [mock_hours_sentence ascii_lower sample_info;
     mock_default_sentence ascii_lower sample_info].
Proof.
  apply (mock_fallback_replies ascii_lower sample_info
           "Is there parking nearby" []).
  vm_compute. reflexivity.
Defined.

(** ** Shape of the TwiML *)

(** X8: whatever the response type and the keyword arguments, the TwiML
    starts by saying something; it hangs up only for ["error"], dials only
    for ["escalation"], and listens again only for ["greeting"],
    ["speech_response"] and ["unclear"].  Any other response type gives a
    lone sentence, after which the call ends. *)
Theorem twiml_shape twilio_phone response_type kwargs :
  let twiml := generate_twiml_response twilio_phone response_type kwargs in
  (∃ message rest, twiml = Say message :: rest)
  ∧ (Hangup ∈ twiml ↔ response_type = "error")
  ∧ ((∃ caller_id number, Dial caller_id number ∈ twiml)
     ↔ response_type = "escalation")
  ∧ ((∃ action, Gather action ∈ twiml)
     ↔ response_type ∈ ["greeting"; "speech_response"; "unclear"])
  ∧ (response_type ∉ ["greeting"; "speech_response"; "escalation"; "error";
                      "unclear"] →
     twiml = [Say "How can I help you today?"]).
Proof.
  intros twiml. unfold twiml, generate_twiml_response.
  destruct (String.eqb_spec response_type "greeting") as [->|Hgreeting].
  { unfold create_greeting_response. repeat split; try discriminate; eauto.
    - intros Hin. revert Hin. not_elem_of_literal.
    - intros (? & ? & Hin). revert Hin. not_elem_of_literal.
    - intros _. elem_of_literal.
    - intros _. eexists. elem_of_literal.
    - intros Hnot. destruct Hnot. elem_of_literal. }
  destruct (String.eqb_spec response_type "speech_response") as [->|Hspeech].
  { unfold create_speech_response. repeat split; try discriminate; eauto.
    - intros Hin. revert Hin. not_elem_of_literal.
    - intros (? & ? & Hin). revert Hin. not_elem_of_literal.
    - intros _. elem_of_literal.
    - intros _. eexists. elem_of_literal.
    - intros Hnot. destruct Hnot. elem_of_literal. }
  destruct (String.eqb_spec response_type "escalation") as [->|Hescalation].
  { unfold create_escalation_response. repeat split; try discriminate; eauto.
    - intros Hin. revert Hin. not_elem_of_literal.
    - intros _. eexists _, _. elem_of_literal.
    - intros (? & Hin). revert Hin. not_elem_of_literal.
    - intros Hin. revert Hin. not_elem_of_literal.
    - intros Hnot. destruct Hnot. elem_of_literal. }
  destruct (String.eqb_spec response_type "error") as [->|Herror].
  { unfold create_error_response. repeat split; try discriminate; eauto.
    - intros _. elem_of_literal.
    - intros (? & ? & Hin). revert Hin. not_elem_of_literal.
    - intros (? & Hin). revert Hin. not_elem_of_literal.
    - intros Hin. revert Hin. not_elem_of_literal.
    - intros Hnot. destruct Hnot. elem_of_literal. }
  destruct (String.eqb_spec response_type "unclear") as [->|Hunclear].
  { unfold create_unclear_response. repeat split; try discriminate; eauto.
    - intros Hin. revert Hin. not_elem_of_literal.
    - intros (? & ? & Hin). revert Hin. not_elem_of_literal.
    - intros _. elem_of_literal.
    - intros _. eexists. elem_of_literal.
    - intros Hnot. destruct Hnot. elem_of_literal. }
  repeat split; try done; eauto.
  - intros Hin. revert Hin. not_elem_of_literal.
  - intros (? & ? & Hin). revert Hin. not_elem_of_literal.
  - intros (? & Hin). revert Hin. not_elem_of_literal.
  - intros Hin. revert Hin. not_elem_of_literal.
Qed.

(** ** What a request does to the registry *)

Section Registry.
Variable ai_agent : AgentOps.
Variable py_float : string -> Result pyfloat.
Variable twilio_phone : option string.
Variable RESTAURANT_INFO : RestaurantInfo.

(** What [get_ai_response] can do to the session: nothing, or append the
    two turns of the exchange and possibly raise the flag. *)
Lemma get_ai_response_outcome user_message session :
  let session' := (get_ai_response ai_agent user_message session).2 in
  session' = session
  ∨ ∃ reply,
      let appended :=
        CallSession.add_message "assistant" reply
          (CallSession.add_message "user" user_message session) in
      session' = appended ∨ session' = CallSession.mark_escalation appended.
Proof.
  unfold get_ai_response, try_except, bind, call, read, update, ret.
  destruct (agent_analyze_intent ai_agent user_message); simpl; [|by left].
  destruct (agent_generate_response ai_agent _ _ _) as [reply|];
    simpl; [|by left].
  right. exists reply.
  destruct (agent_needs_escalation ai_agent _ _ _) as [[]|]; simpl; auto.
Qed.

(** What the speech webhook can do to the registry: it replaces the
    session of the call, by itself or by the session after the turn, with
    the summary refreshed when the flag is raised. *)
Lemma speech_outcome form_data (sessions : gmap string CallSession.t) :
  let call_sid := dict_get form_data "CallSid" EmptyString in
  let speech_result := dict_get form_data "SpeechResult" EmptyString in
  let session := session_of sessions call_sid in
  let turn := (get_ai_response ai_agent speech_result session).2 in
  (handle_twilio_speech_webhook ai_agent py_float twilio_phone
     RESTAURANT_INFO form_data sessions).2
  = <[call_sid := session]> sessions
  ∨ (handle_twilio_speech_webhook ai_agent py_float twilio_phone
       RESTAURANT_INFO form_data sessions).2
    = <[call_sid :=
          if CallSession.escalation_needed turn
          then CallSession.set_call_summary
                 (escalation_summary call_sid turn) turn
          else turn]> sessions.
Proof.
  intros call_sid speech_result session turn.
  unfold handle_twilio_speech_webhook.
  fold call_sid speech_result. rewrite get_session_spec. fold session.
  destruct (String.eqb speech_result EmptyString); [by left|].
  destruct (py_float _) as [c|e]; [|by left].
  destruct (float_lt c half); [by left|].
  destruct (get_ai_response_returns ai_agent speech_result session)
    as [reply Hreply].
  unfold turn.
  destruct (get_ai_response ai_agent speech_result session)
    as [reply' session']. simpl in *. subst reply'.
  right. unfold CallSession.needs_escalation.
  destruct (CallSession.escalation_needed session');
    by rewrite insert_insert_eq.
Qed.

(** A request touches the session of its own call only. *)
Lemma serve_other_call request (sessions : gmap string CallSession.t) other :
  other ≠ request_call_sid request →
  (serve ai_agent py_float twilio_phone RESTAURANT_INFO request sessions).2
    !! other
  = sessions !! other.
Proof.
  intros Hother.
  destruct request as [form_data|form_data|form_data]; simpl in *.
  - unfold handle_twilio_voice_webhook, voice_webhook_body.
    rewrite get_session_spec, insert_insert_eq. simpl.
    by rewrite lookup_insert_ne.
  - destruct (speech_outcome form_data sessions) as [-> | ->];
      by rewrite lookup_insert_ne.
  - unfold handle_twilio_status_webhook.
    case_bool_decide; [|done].
    destruct (sessions !! dict_get form_data "CallSid" EmptyString);
      [|done].
    simpl. by rewrite lookup_delete_ne.
Qed.

(** X9: requests touch the session of their own call only.  Over any
    sequence of requests for other calls, whatever their kind and also
    when a handler raises, the registry entry of a call stays as it is. *)
Theorem serve_frame requests :
  ∀ (sessions : gmap string CallSession.t) other,
    Forall (fun request => request_call_sid request ≠ other) requests →
    serve_all ai_agent py_float twilio_phone RESTAURANT_INFO requests sessions
      !! other
    = sessions !! other.
Proof.
  induction requests as [|request requests IH]; intros sessions other Hothers;
    simpl; [done|].
  apply Forall_cons in Hothers as [Hrequest Hothers].
  rewrite IH by done. by apply serve_other_call.
Qed.
End Registry.

Lemma serve_frame_witness :
  serve_all (RestaurantAIAgent ascii_lower sample_info) decimal_float None
    sample_info
    [SpeechRequest (speech_form "CA2" "I want to order" "0.9");
     SpeechRequest (speech_form "CA3" "hello" "oops");
     StatusRequest (status_form "CA2" "completed")]
    {[ "CA1" := CallSession.init "CA1" ]} !! "CA1"
  = Some (CallSession.init "CA1").
Proof.
  rewrite (serve_frame (RestaurantAIAgent ascii_lower sample_info)
             decimal_float None sample_info).
  - apply lookup_singleton_eq.
  - repeat constructor; vm_compute; discriminate.
Defined.

(** ** Invariants of the registry *)

Lemma exchanges_app_both history user_content assistant_content :
  (exchanges history →
   exchanges (history ++ [ {| role := "user"; content := user_content |};
                           {| role := "assistant";
                              content := assistant_content |} ]))
  ∧ (∀ turn,
        exchanges (turn :: history) →
        exchanges (turn :: history
                     ++ [ {| role := "user"; content := user_content |};
                          {| role := "assistant";
                             content := assistant_content |} ])).
Proof.
  induction history as [|first rest [IH1 IH2]].
  - split; [done|]. by intros turn [].
  - split; [apply IH2|].
    intros turn (? & ? & Hrest). simpl. auto.
Qed.

Lemma exchanges_add_message session user_content assistant_content :
  exchanges (CallSession.conversation_history session) →
  exchanges
    (CallSession.conversation_history
       (CallSession.add_message "assistant" assistant_content
          (CallSession.add_message "user" user_content session))).
Proof.
  intros Hex. unfold CallSession.add_message.
  cbn [CallSession.conversation_history]. rewrite <- app_assoc.
  by apply exchanges_app_both.
Qed.

Lemma exchanges_even history :
  exchanges history → ∃ n, length history = 2 * n.
Proof.
  revert history.
  assert (∀ n (history : list Turn),
            (length history ≤ n)%nat → exchanges history →
            ∃ k, length history = 2 * k) as Hall.
  { induction n as [|n IH]; intros [|first [|second rest]]; simpl;
      intros Hlen Hex; try done; try lia; try (by exists 0).
    destruct Hex as (_ & _ & Hrest).
    destruct (IH rest ltac:(lia) Hrest) as [k Hk].
    exists (S k). lia. }
  intros history. by apply (Hall (length history)).
Qed.

Lemma init_consistent call_sid :
  session_consistent call_sid (CallSession.init call_sid).
Proof.
  repeat split; try done.
  intros key [v Hv]. simpl in Hv. by rewrite lookup_empty in Hv.
Qed.

Section Consistency.
Variable ai_agent : AgentOps.
Variable py_float : string -> Result pyfloat.
Variable twilio_phone : option string.
Variable RESTAURANT_INFO : RestaurantInfo.

(** After a turn the session is consistent again once the handler has
    refreshed the summary of an escalated session. *)
Lemma turn_consistent call_sid user_message session :
  session_consistent call_sid session →
  let turn := (get_ai_response ai_agent user_message session).2 in
  session_consistent call_sid
    (if CallSession.escalation_needed turn
     then CallSession.set_call_summary (escalation_summary call_sid turn) turn
     else turn).
Proof.
  intros (Hsid & Hex & Hinfo & Hsummary) turn.
  assert (CallSession.call_sid turn = call_sid
          ∧ exchanges (CallSession.conversation_history turn)
          ∧ CallSession.caller_info turn = CallSession.caller_info session
          ∧ (CallSession.escalation_needed turn = false →
             CallSession.call_summary turn = None)) as (Hsid' & Hex' & Hinfo' & Hnone).
  { assert (CallSession.escalation_needed session = false →
            CallSession.call_summary session = None) as Hnone.
    { intros Hflag. destruct (CallSession.call_summary session) eqn:Hs; [|done].
      destruct (Hsummary _ eq_refl) as [Htrue _]. congruence. }
    unfold turn.
    destruct (get_ai_response_outcome ai_agent user_message session)
      as [-> | (reply & [-> | ->])].
    - done.
    - split; [exact Hsid|]. split; [by apply exchanges_add_message|].
      split; [done | exact Hnone].
    - split; [exact Hsid|]. split; [by apply exchanges_add_message|].
      split; [done | discriminate]. }
  destruct (CallSession.escalation_needed turn) eqn:Hflag.
  - split; [exact Hsid'|]. split; [exact Hex'|]. split.
    + intros key. cbn [CallSession.set_call_summary CallSession.caller_info].
      rewrite Hinfo'. apply Hinfo.
    + intros summary [= <-]. split; [exact Hflag | done].
  - split; [exact Hsid'|]. split; [exact Hex'|]. split.
    + intros key. rewrite Hinfo'. apply Hinfo.
    + intros summary. by rewrite (Hnone eq_refl).
Qed.

Lemma serve_consistent request (sessions : gmap string CallSession.t) :
  (∀ call_sid session,
      sessions !! call_sid = Some session →
      session_consistent call_sid session) →
  ∀ call_sid session,
    (serve ai_agent py_float twilio_phone RESTAURANT_INFO request sessions).2
      !! call_sid = Some session →
    session_consistent call_sid session.
Proof.
  intros Hall call_sid session.
  assert (∀ k, session_consistent k (session_of sessions k)) as Hof.
  { intros k. unfold session_of.
    destruct (sessions !! k) eqn:Hk; [by apply Hall | apply init_consistent]. }
  destruct (decide (call_sid = request_call_sid request)) as [->|Hother];
    [|rewrite serve_other_call by done; apply Hall].
  destruct request as [form_data|form_data|form_data]; simpl.
  - unfold handle_twilio_voice_webhook, voice_webhook_body.
    rewrite get_session_spec, insert_insert_eq. simpl.
    rewrite lookup_insert_eq. intros [= <-].
    destruct (Hof (dict_get form_data "CallSid" EmptyString))
      as (Hsid & Hex & Hinfo & Hsummary).
    split; [exact Hsid|]. split; [exact Hex|]. split; [|exact Hsummary].
    intros key. cbn [CallSession.set_caller_info CallSession.caller_info].
    destruct (decide ("phone" = key)) as [<-|Hne]; [done|].
    rewrite lookup_insert_ne by done. apply Hinfo.
  - destruct (speech_outcome ai_agent py_float twilio_phone RESTAURANT_INFO
                form_data sessions) as [-> | ->];
      rewrite lookup_insert_eq; intros [= <-]; [apply Hof|].
    apply turn_consistent, Hof.
  - unfold handle_twilio_status_webhook.
    case_bool_decide; [|apply Hall].
    destruct (sessions !! dict_get form_data "CallSid" EmptyString);
      [|apply Hall].
    simpl. by rewrite lookup_delete_eq.
Qed.

Lemma serve_all_consistent requests :
  ∀ sessions : gmap string CallSession.t,
    (∀ call_sid session,
        sessions !! call_sid = Some session →
        session_consistent call_sid session) →
    ∀ call_sid session,
      serve_all ai_agent py_float twilio_phone RESTAURANT_INFO requests
                sessions !! call_sid = Some session →
      session_consistent call_sid session.
Proof.
  induction requests as [|request requests IH]; intros sessions Hall; simpl.
  - done.
  - apply IH. by apply serve_consistent.
Qed.

Lemma reachable_consistent requests call_sid session :
  serve_all ai_agent py_float twilio_phone RESTAURANT_INFO requests ∅
    !! call_sid = Some session →
  session_consistent call_sid session.
Proof.
  apply serve_all_consistent. intros k s Hk. by rewrite lookup_empty in Hk.
Qed.

(** X10: in every registry reached from the empty one, whatever the
    requests and whatever the agent does, the history of a session is a
    sequence of exchanges, a user turn followed by an assistant turn, so
    its length is even. *)
Theorem reachable_history_exchanges requests call_sid session :
  serve_all ai_agent py_float twilio_phone RESTAURANT_INFO requests ∅
    !! call_sid = Some session →
  exchanges (CallSession.conversation_history session)
  ∧ ∃ n, length (CallSession.conversation_history session) = 2 * n.
Proof.
  intros (_ & Hex & _)%reachable_consistent.
  split; [done | by apply exchanges_even].
Qed.

(** X11: in every registry reached from the empty one, a session that has
    a summary is escalated, and the summary is the one of its call: it
    names the call, its [final_intent] is ["Escalated to human"] and its
    [conversation_length] is the current length of the history. *)
Theorem reachable_summary_consistent requests call_sid session summary :
  serve_all ai_agent py_float twilio_phone RESTAURANT_INFO requests ∅
    !! call_sid = Some session →
  CallSession.call_summary session = Some summary →
  CallSession.escalation_needed session = true
  ∧ summary_call_sid summary = call_sid
  ∧ final_intent summary = "Escalated to human"
  ∧ conversation_length summary
    = length (CallSession.conversation_history session).
Proof.
  intros (_ & _ & _ & Hsummary)%reachable_consistent. apply Hsummary.
Qed.

(** X12: in every registry reached from the empty one, a session is
    registered under its own [call_sid], and the only caller datum it
    holds is the phone number. *)
Theorem reachable_session_key requests call_sid session :
  serve_all ai_agent py_float twilio_phone RESTAURANT_INFO requests ∅
    !! call_sid = Some session →
  CallSession.call_sid session = call_sid
  ∧ dom (CallSession.caller_info session) ⊆ {[ "phone" ]}.
Proof.
  intros (Hsid & _ & Hinfo & _)%reachable_consistent.
  split; [done|]. intros key Hkey%elem_of_dom.
  apply elem_of_singleton. by apply Hinfo.
Qed.
End Consistency.

Lemma reachable_history_exchanges_witness :
  ∃ n,
    length (CallSession.conversation_history
              (session_of
                 (serve_all (RestaurantAIAgent ascii_lower sample_info)
                    decimal_float None sample_info sample_call ∅) "CA1"))
    = 2 * n.
Proof.
  refine (proj2 (reachable_history_exchanges
                   (RestaurantAIAgent ascii_lower sample_info) decimal_float
                   None sample_info sample_call "CA1" _ _)).
  vm_compute. reflexivity.
Defined.

Lemma reachable_summary_consistent_witness :
  CallSession.escalation_needed
    (session_of
       (serve_all (RestaurantAIAgent ascii_lower sample_info) decimal_float
          None sample_info sample_call ∅) "CA1") = true.
Proof.
  refine (proj1 (reachable_summary_consistent
                   (RestaurantAIAgent ascii_lower sample_info) decimal_float
                   None sample_info sample_call "CA1" _
                   {| summary_call_sid := "CA1";
                      summary_caller_phone := "+15550100";
                      final_intent := "Escalated to human";
                      conversation_length := 4;
                      escalation_reason :=
                        "Order/Reservation/Complaint detected" |} _ _));
    vm_compute; reflexivity.
Defined.

Lemma reachable_session_key_witness :
  CallSession.call_sid
    (session_of
       (serve_all (RestaurantAIAgent ascii_lower sample_info) decimal_float
          None sample_info sample_call ∅) "CA1") = "CA1".
Proof.
  refine (proj1 (reachable_session_key
                   (RestaurantAIAgent ascii_lower sample_info) decimal_float
                   None sample_info sample_call "CA1" _ _)).
  vm_compute. reflexivity.
Defined.

(** ** Histories only grow *)

Section Growth.
Variable ai_agent : AgentOps.
Variable py_float : string -> Result pyfloat.
Variable twilio_phone : option string.
Variable RESTAURANT_INFO : RestaurantInfo.

Lemma turn_history_prefix user_message session :
  CallSession.conversation_history session
  `prefix_of` CallSession.conversation_history
                (get_ai_response ai_agent user_message session).2.
Proof.
  destruct (get_ai_response_outcome ai_agent user_message session)
    as [-> | (reply & [-> | ->])]; [done| |];
    unfold CallSession.add_message;
    cbn [CallSession.mark_escalation CallSession.conversation_history];
    rewrite <- app_assoc; by apply prefix_app_r.
Qed.

Lemma serve_history_step request (sessions : gmap string CallSession.t)
    call_sid session :
  sessions !! call_sid = Some session →
  let sessions' :=
    (serve ai_agent py_float twilio_phone RESTAURANT_INFO request sessions).2 in
  (∀ session',
      sessions' !! call_sid = Some session' →
      CallSession.conversation_history session
      `prefix_of` CallSession.conversation_history session')
  ∧ (ends_call call_sid request = false → is_Some (sessions' !! call_sid)).
Proof.
  intros Hs sessions'. unfold sessions'.
  destruct (decide (call_sid = request_call_sid request)) as [->|Hother].
  2: { rewrite serve_other_call by done. rewrite Hs.
       split; [by intros ? [= <-] | eauto]. }
  destruct request as [form_data|form_data|form_data]; simpl in *.
  - unfold handle_twilio_voice_webhook, voice_webhook_body.
    rewrite get_session_spec, insert_insert_eq. simpl.
    rewrite lookup_insert_eq, (session_of_present _ _ _ Hs).
    split; [by intros ? [= <-] | eauto].
  - destruct (speech_outcome ai_agent py_float twilio_phone RESTAURANT_INFO
                form_data sessions) as [-> | ->];
      rewrite lookup_insert_eq, (session_of_present _ _ _ Hs);
      (split; [intros ? [= <-] | eauto]); [done|].
    destruct (CallSession.escalation_needed _); apply turn_history_prefix.
  - unfold handle_twilio_status_webhook.
    rewrite String.eqb_refl. simpl.
    case_bool_decide; simpl.
    + rewrite Hs. simpl. rewrite lookup_delete_eq. by split.
    + rewrite Hs. split; [by intros ? [= <-] | eauto].
Qed.

(** X13: the history of a session is append-only.  Over any sequence of
    requests that does not end the call, the session stays registered and
    its earlier history is a prefix of its later one: no turn is removed,
    changed or reordered. *)
Theorem history_append_only requests :
  ∀ (sessions : gmap string CallSession.t) call_sid session,
    sessions !! call_sid = Some session →
    Forall (fun request => ends_call call_sid request = false) requests →
    ∃ session',
      serve_all ai_agent py_float twilio_phone RESTAURANT_INFO requests
                sessions !! call_sid = Some session'
      ∧ CallSession.conversation_history session
        `prefix_of` CallSession.conversation_history session'.
Proof.
  induction requests as [|request requests IH];
    intros sessions call_sid session Hs Hlive; simpl.
  - by exists session.
  - apply Forall_cons in Hlive as [Hrequest Hlive].
    destruct (serve_history_step request sessions call_sid session Hs)
      as [Hprefix Hpresent].
    destruct (Hpresent Hrequest) as [middle Hmiddle].
    destruct (IH _ call_sid middle Hmiddle Hlive) as (session' & Hs' & Hlater).
    exists session'. split; [done|].
    by etrans; [apply Hprefix|].
Qed.

(** X14: once the flag of a session is raised, every later speech result
    that passes the usability test is answered with the transfer to the
    staff, whatever is said and whatever the agent replies, until the call
    ends; the automated dialogue does not resume. *)
Theorem escalated_call_keeps_transferring requests form_data
    (sessions : gmap string CallSession.t) session c :
  let call_sid := dict_get form_data "CallSid" EmptyString in
  let speech_result := dict_get form_data "SpeechResult" EmptyString in
  let confidence := dict_get form_data "Confidence" "0.0" in
  sessions !! call_sid = Some session →
  CallSession.escalation_needed session = true →
  Forall (fun request => ends_call call_sid request = false) requests →
  speech_result ≠ EmptyString →
  py_float confidence = Ok c →
  float_lt c half = false →
  (handle_twilio_speech_webhook ai_agent py_float twilio_phone RESTAURANT_INFO
     form_data
     (serve_all ai_agent py_float twilio_phone RESTAURANT_INFO requests
        sessions)).1
  = Ok (XmlResponse
          (create_escalation_response twilio_phone (phone RESTAURANT_INFO))).
Proof.
  intros call_sid speech_result confidence Hs Hflag Hlive Htext Hconf Hlt.
  destruct (serve_all_keeps_escalation ai_agent py_float twilio_phone
              RESTAURANT_INFO requests sessions call_sid session Hs Hflag
              Hlive) as (later & Hlater & Hflag').
  destruct (speech_usable ai_agent py_float twilio_phone RESTAURANT_INFO
              form_data
              (serve_all ai_agent py_float twilio_phone RESTAURANT_INFO
                 requests sessions) c Htext Hconf Hlt)
    as (ai_response & _ & ->).
  fold call_sid speech_result.
  rewrite (session_of_present _ _ _ Hlater).
  by rewrite (get_ai_response_keeps_escalation ai_agent speech_result later
               Hflag').
Qed.
End Growth.

Lemma history_append_only_witness :
  ∃ session',
    serve_all (RestaurantAIAgent ascii_lower sample_info) decimal_float None
      sample_info
      [SpeechRequest (speech_form "CA1" "Do you have a menu?" "0.9");
       StatusRequest (status_form "CA1" "in-progress")]
      {[ "CA1" := CallSession.add_message "assistant" "We are open."
                    (CallSession.add_message "user" "hours?"
                       (CallSession.init "CA1")) ]}
      !! "CA1" = Some session'
    ∧ CallSession.conversation_history
        (CallSession.add_message "assistant" "We are open."
           (CallSession.add_message "user" "hours?" (CallSession.init "CA1")))
      `prefix_of` CallSession.conversation_history session'.
Proof.
  apply (history_append_only (RestaurantAIAgent ascii_lower sample_info)
           decimal_float None sample_info).
  - apply lookup_singleton_eq.
  - repeat constructor.
Defined.

Lemma escalated_call_keeps_transferring_witness :
  (handle_twilio_speech_webhook (RestaurantAIAgent ascii_lower sample_info)
     decimal_float None sample_info
     (speech_form "CA1" "What time do you open?" "0.9")
     (serve_all (RestaurantAIAgent ascii_lower sample_info) decimal_float None
        sample_info
        [SpeechRequest (speech_form "CA1" "mumble" "0.1")]
        {[ "CA1" := CallSession.mark_escalation (CallSession.init "CA1") ]})).1
  = Ok (XmlResponse (create_escalation_response None (phone sample_info))).
Proof.
  refine (escalated_call_keeps_transferring
            (RestaurantAIAgent ascii_lower sample_info) decimal_float None
            sample_info
            [SpeechRequest (speech_form "CA1" "mumble" "0.1")]
            (speech_form "CA1" "What time do you open?" "0.9")
            {[ "CA1" := CallSession.mark_escalation (CallSession.init "CA1") ]}
            (CallSession.mark_escalation (CallSession.init "CA1"))
            (Ffinite (9 # 10)) _ _ _ _ _ _).
  - vm_compute. reflexivity.
  - reflexivity.
  - repeat constructor.
  - vm_compute. discriminate.
  - vm_compute. reflexivity.
  - vm_compute. reflexivity.
Defined.

(** ** The caller's number in the summary *)

(** X15: the [caller_phone] of an escalation summary is the [From] field
    of the call-start request when the voice webhook ran for the call just
    before, and ["Unknown"] when the speech result is the first request of
    the call. *)
Theorem escalation_summary_caller_phone lower restaurant_info py_float
    twilio_phone RESTAURANT_INFO voice_data speech_data
    (sessions : gmap string CallSession.t) c :
  let call_sid := dict_get speech_data "CallSid" EmptyString in
  let speech_result := dict_get speech_data "SpeechResult" EmptyString in
  let confidence := dict_get speech_data "Confidence" "0.0" in
  let ai_agent := RestaurantAIAgent lower restaurant_info in
  let started :=
    (handle_twilio_voice_webhook twilio_phone RESTAURANT_INFO voice_data
       sessions).2 in
  speech_result ≠ EmptyString →
  py_float confidence = Ok c →
  float_lt c half = false →
  escalation_needed (analyze_intent lower speech_result) = true →
  (dict_get voice_data "CallSid" EmptyString = call_sid →
   ∃ session summary,
     (handle_twilio_speech_webhook ai_agent py_float twilio_phone
        RESTAURANT_INFO speech_data started).2 !! call_sid = Some session
     ∧ CallSession.call_summary session = Some summary
     ∧ summary_caller_phone summary
       = dict_get voice_data "From" EmptyString)
  ∧ (sessions !! call_sid = None →
     ∃ session summary,
       (handle_twilio_speech_webhook ai_agent py_float twilio_phone
          RESTAURANT_INFO speech_data sessions).2 !! call_sid = Some session
       ∧ CallSession.call_summary session = Some summary
       ∧ summary_caller_phone summary = "Unknown").
Proof.
  intros call_sid speech_result confidence ai_agent started Htext Hconf Hlt
    Hesc.
  assert (∀ registry : gmap string CallSession.t,
            ∃ session summary,
              (handle_twilio_speech_webhook ai_agent py_float twilio_phone
                 RESTAURANT_INFO speech_data registry).2 !! call_sid
              = Some session
              ∧ CallSession.call_summary session = Some summary
              ∧ summary_caller_phone summary
                = dict_get
                    (CallSession.caller_info (session_of registry call_sid))
                    "phone" "Unknown") as Hsummary.
  { intros registry.
    destruct (speech_usable ai_agent py_float twilio_phone RESTAURANT_INFO
                speech_data registry c Htext Hconf Hlt)
      as (ai_response & _ & ->).
    fold call_sid speech_result. unfold ai_agent.
    rewrite get_ai_response_agent, Hesc. simpl.
    eexists _, _. split; [apply lookup_insert_eq|]. by split. }
  split.
  - intros Hsame.
    destruct (Hsummary started) as (session & summary & Hs & Hsum & Hphone).
    exists session, summary. split; [done|]. split; [done|].
    rewrite Hphone.
    unfold started, handle_twilio_voice_webhook, voice_webhook_body.
    rewrite Hsame, get_session_spec, insert_insert_eq. simpl.
    rewrite session_of_insert. simpl.
    unfold dict_get at 1. by rewrite lookup_insert_eq.
  - intros Hnew.
    destruct (Hsummary sessions) as (session & summary & Hs & Hsum & Hphone).
    exists session, summary. split; [done|]. split; [done|].
    rewrite Hphone. unfold session_of. rewrite Hnew. simpl.
    unfold dict_get. by rewrite lookup_empty.
Qed.

Lemma escalation_summary_caller_phone_witness :
  ∃ session summary,
    (handle_twilio_speech_webhook (RestaurantAIAgent ascii_lower sample_info)
       decimal_float None sample_info
       (speech_form "CA1" "I want to order a pizza" "0.8")
       (handle_twilio_voice_webhook None sample_info
          (voice_form "CA1" "+15550100" "+15550199") ∅).2).2 !! "CA1"
    = Some session
    ∧ CallSession.call_summary session = Some summary
    ∧ summary_caller_phone summary = "+15550100".
Proof.
  refine (proj1 (escalation_summary_caller_phone ascii_lower sample_info
                   decimal_float None sample_info
                   (voice_form "CA1" "+15550100" "+15550199")
                   (speech_form "CA1" "I want to order a pizza" "0.8") ∅
                   (Ffinite (8 # 10)) _ _ _ _) _).
  - vm_compute. discriminate.
  - vm_compute. reflexivity.
  - vm_compute. reflexivity.
  - vm_compute. reflexivity.
  - vm_compute. reflexivity.
Defined.

(** ** The status webhook *)

(** X16: the status webhook never adds or changes a session: the registry
    afterwards is a part of the one before, equal to it when the status is
    not terminal, and a summary is logged exactly when a session is
    removed.  Delivering the same status request again changes nothing
    and logs nothing. *)
Theorem status_webhook_effect form_data (sessions : gmap string CallSession.t) :
  let call_sid := dict_get form_data "CallSid" EmptyString in
  let status := dict_get form_data "CallStatus" EmptyString in
  let outcome := handle_twilio_status_webhook form_data sessions in
  outcome.2 ⊆ sessions
  ∧ (status ∉ ["completed"; "busy"; "failed"; "no-answer"] →
     outcome.2 = sessions ∧ outcome.1.2 = None)
  ∧ (is_Some outcome.1.2 ↔ is_Some (sessions !! call_sid)
                           ∧ outcome.2 !! call_sid = None)
  ∧ (status ∈ ["completed"; "busy"; "failed"; "no-answer"] →
     handle_twilio_status_webhook form_data outcome.2
     = (Ok (PlainResponse "OK"), None, outcome.2)).
Proof.
  intros call_sid status outcome.
  unfold outcome, handle_twilio_status_webhook. fold call_sid status.
  change terminal_statuses with ["completed"; "busy"; "failed"; "no-answer"].
  case_bool_decide as Hterminal.
  - destruct (sessions !! call_sid) as [session|] eqn:Hs; simpl.
    + split; [apply delete_subseteq|]. split; [done|]. split.
      * rewrite lookup_delete_eq. split; [eauto | by intros _; eexists].
      * intros _. by rewrite lookup_delete_eq.
    + split; [done|]. split; [done|]. split.
      * split; [by intros [? ?] | by intros [[? ?] _]].
      * intros _. by rewrite Hs.
  - simpl. split; [done|]. split; [done|]. split; [|done].
    split; [by intros [? ?]|]. intros [[session Hs] Hnone]. congruence.
Qed.

Lemma status_webhook_effect_witness :
  handle_twilio_status_webhook (status_form "CA1" "completed")
    (handle_twilio_status_webhook (status_form "CA1" "completed")
       {[ "CA1" := CallSession.init "CA1" ]}).2
  = (Ok (PlainResponse "OK"), None,
     (handle_twilio_status_webhook (status_form "CA1" "completed")
        {[ "CA1" := CallSession.init "CA1" ]}).2).
Proof.
  refine (proj2 (proj2 (proj2
            (status_webhook_effect (status_form "CA1" "completed")
               {[ "CA1" := CallSession.init "CA1" ]}))) _).
  vm_compute. elem_of_literal.
Defined.

(** ** Counting the turns *)

Section Counting.
Variable lower : string -> string.
Variable restaurant_info : RestaurantInfo.
Variable py_float : string -> Result pyfloat.
Variable twilio_phone : option string.
Variable RESTAURANT_INFO : RestaurantInfo.

Abbreviation the_agent := (RestaurantAIAgent lower restaurant_info).

Lemma serve_history_length request (sessions : gmap string CallSession.t)
    call_sid :
  ends_call call_sid request = false →
  length (CallSession.conversation_history
            (session_of
               (serve the_agent py_float twilio_phone RESTAURANT_INFO request
                  sessions).2 call_sid))
  = length (CallSession.conversation_history (session_of sessions call_sid))
    + (if usable_speech py_float call_sid request then 2 else 0).
Proof.
  intros Hlive.
  destruct (decide (call_sid = request_call_sid request)) as [->|Hother].
  2: { assert (usable_speech py_float call_sid request = false) as ->.
       { destruct request as [?|form_data|?]; simpl in *; try done.
         apply andb_false_iff. left. apply andb_false_iff. left.
         by apply String.eqb_neq. }
       unfold session_of. rewrite serve_other_call by done. lia. }
  destruct request as [form_data|form_data|form_data]; simpl in *.
  - unfold handle_twilio_voice_webhook, voice_webhook_body.
    rewrite get_session_spec, insert_insert_eq. simpl.
    rewrite session_of_insert. simpl. lia.
  - rewrite String.eqb_refl. simpl.
    destruct (String.eqb_spec (dict_get form_data "SpeechResult" EmptyString)
                EmptyString) as [Hempty|Htext]; simpl.
    { rewrite speech_unclear by auto. simpl. rewrite session_of_insert. lia. }
    destruct (py_float (dict_get form_data "Confidence" "0.0")) as [c|e]
      eqn:Hconf.
    2: { rewrite (speech_malformed_confidence _ _ _ _ _ _ e Htext Hconf).
         simpl. rewrite session_of_insert. lia. }
    destruct (float_lt c half) eqn:Hlt; simpl.
    { rewrite speech_unclear by eauto. simpl. rewrite session_of_insert. lia. }
    destruct (speech_usable the_agent py_float twilio_phone RESTAURANT_INFO
                form_data sessions c Htext Hconf Hlt)
      as (ai_response & _ & ->).
    rewrite get_ai_response_agent.
    destruct (escalation_needed _); simpl;
      try destruct (CallSession.escalation_needed _); simpl;
      rewrite session_of_insert; simpl; rewrite !length_app; simpl; lia.
  - rewrite String.eqb_refl in Hlive. simpl in Hlive.
    unfold handle_twilio_status_webhook.
    rewrite Hlive. simpl. lia.
Qed.

(** X17: the history of a call holds two turns for every speech result of
    the call that passed the usability test, and nothing else: over any
    sequence of requests that does not end the call, its length grows by
    twice the number of usable speech results among them. *)
Theorem history_counts_usable_speech requests :
  ∀ (sessions : gmap string CallSession.t) call_sid,
    Forall (fun request => ends_call call_sid request = false) requests →
    length (CallSession.conversation_history
              (session_of
                 (serve_all the_agent py_float twilio_phone RESTAURANT_INFO
                    requests sessions) call_sid))
    = length (CallSession.conversation_history (session_of sessions call_sid))
      + 2 * length (List.filter (usable_speech py_float call_sid) requests).
Proof.
  induction requests as [|request requests IH];
    intros sessions call_sid Hlive; simpl.
  - lia.
  - apply Forall_cons in Hlive as [Hrequest Hlive].
    rewrite (IH _ call_sid Hlive),
            (serve_history_length request sessions call_sid Hrequest).
    destruct (usable_speech py_float call_sid request); simpl; lia.
Qed.
End Counting.

Lemma history_counts_usable_speech_witness :
  length (CallSession.conversation_history
            (session_of
               (serve_all (RestaurantAIAgent ascii_lower sample_info)
                  decimal_float None sample_info
                  (sample_call
                     ++ [SpeechRequest (speech_form "CA1" "mumble" "0.2");
                         SpeechRequest (speech_form "CA2" "hello" "0.9")])
                  ∅) "CA1"))
  = 4.
Proof.
  refine (history_counts_usable_speech ascii_lower sample_info decimal_float
            None sample_info
            (sample_call
               ++ [SpeechRequest (speech_form "CA1" "mumble" "0.2");
                   SpeechRequest (speech_form "CA2" "hello" "0.9")])
            ∅ "CA1" _).
  repeat constructor.
Defined.

(** ** The session endpoint *)

(** X18: the session endpoint answers 404 exactly for a call without
    session.  After any call-start or speech request of a call, also an
    unclear or a failing one, it returns the session of the call, with
    the caller's number after a call-start; after a terminal status
    request it answers 404 again. *)
Theorem session_endpoint ai_agent py_float twilio_phone RESTAURANT_INFO
    form_data (sessions : gmap string CallSession.t) :
  let call_sid := dict_get form_data "CallSid" EmptyString in
  (get_call_session call_sid sessions
   = inr {| status_code := 404; detail := "Session not found" |}
   ↔ sessions !! call_sid = None)
  ∧ (∃ session,
        get_call_session call_sid
          (handle_twilio_voice_webhook twilio_phone RESTAURANT_INFO form_data
             sessions).2 = inl session
        ∧ CallSession.caller_info session !! "phone"
          = Some (dict_get form_data "From" EmptyString)
        ∧ CallSession.conversation_history session
          = CallSession.conversation_history (session_of sessions call_sid))
  ∧ (∃ session,
        get_call_session call_sid
          (handle_twilio_speech_webhook ai_agent py_float twilio_phone
             RESTAURANT_INFO form_data sessions).2 = inl session)
  ∧ (dict_get form_data "CallStatus" EmptyString
       ∈ ["completed"; "busy"; "failed"; "no-answer"] →
     get_call_session call_sid
       (handle_twilio_status_webhook form_data sessions).2
     = inr {| status_code := 404; detail := "Session not found" |}).
Proof.
  intros call_sid. unfold get_call_session. split; [|split; [|split]].
  - by destruct (sessions !! call_sid).
  - unfold handle_twilio_voice_webhook, voice_webhook_body. fold call_sid.
    rewrite get_session_spec, insert_insert_eq. simpl.
    rewrite lookup_insert_eq. eexists. split; [done|]. simpl.
    by rewrite lookup_insert_eq.
  - destruct (speech_outcome ai_agent py_float twilio_phone RESTAURANT_INFO
                form_data sessions) as [-> | ->];
      fold call_sid; rewrite lookup_insert_eq; eauto.
  - intros Hterminal. unfold handle_twilio_status_webhook. fold call_sid.
    rewrite bool_decide_eq_true_2 by done.
    destruct (sessions !! call_sid) eqn:Hs; simpl.
    + by rewrite lookup_delete_eq.
    + by rewrite Hs.
Qed.

Lemma session_endpoint_witness :
  get_call_session "CA1"
    (handle_twilio_status_webhook (status_form "CA1" "busy")
       {[ "CA1" := CallSession.init "CA1" ]}).2
  = inr {| status_code := 404; detail := "Session not found" |}.
Proof.
  refine (proj2 (proj2 (proj2
            (session_endpoint (RestaurantAIAgent ascii_lower sample_info)
               decimal_float None sample_info (status_form "CA1" "busy")
               {[ "CA1" := CallSession.init "CA1" ]}))) _).
  vm_compute. elem_of_literal.
Defined.

(** ** The restaurant facts from the environment *)

Lemma string_append_nil_r s : s ++ EmptyString = s.
Proof. induction s as [|c s IH]; [done|]. by rewrite append_cons, IH. Qed.

Lemma string_length_append s1 s2 :
  String.length (s1 ++ s2) = String.length s1 + String.length s2.
Proof.
  induction s1 as [|c s1 IH]; [done|].
  rewrite append_cons. simpl. by rewrite IH.
Qed.

Lemma split_from_skip sep passed :
  ∀ s current,
    split_from sep (passed ++ s) (String.length passed) current
    = split_from sep s 0 current.
Proof.
  induction passed as [|c passed IH]; intros s current; [done|].
  rewrite append_cons. simpl. apply IH.
Qed.

Lemma split_from_here sep c rest current :
  split_from sep (String c rest) 0 current
  = if String.prefix sep (String c rest)
    then current :: split_from sep rest (String.length sep - 1) EmptyString
    else split_from sep rest 0 (current ++ String c EmptyString).
Proof. reflexivity. Qed.

Lemma split_from_cons sep s skip current :
  ∃ first rest, split_from sep s skip current = first :: rest.
Proof.
  revert skip current.
  induction s as [|c s IH]; intros skip current; [simpl; eauto|].
  destruct skip as [|skip]; [|apply IH].
  rewrite split_from_here.
  destruct (String.prefix sep (String c s)); [eauto | apply IH].
Qed.

Lemma join_cons sep first second rest :
  join sep (first :: second :: rest)
  = first ++ sep ++ join sep (second :: rest).
Proof. reflexivity. Qed.

Lemma join_split_from sep :
  sep ≠ EmptyString →
  ∀ n s current,
    (String.length s ≤ n)%nat →
    join sep (split_from sep s 0 current) = current ++ s.
Proof.
  intros Hsep.
  induction n as [|n IH]; intros [|c rest] current Hlen; simpl in Hlen;
    try lia.
  - simpl. by rewrite string_append_nil_r.
  - simpl. by rewrite string_append_nil_r.
  - rewrite split_from_here.
    destruct (String.prefix sep (String c rest)) eqn:Hprefix.
    + apply prefix_spec in Hprefix as [post Hpost].
      destruct sep as [|d sep']; [done|].
      rewrite append_cons in Hpost. injection Hpost as <- ->.
      replace (String.length (String c sep') - 1) with (String.length sep')
        by (simpl; lia).
      rewrite split_from_skip.
      destruct (split_from_cons (String c sep') post 0 EmptyString)
        as (first & others & Hsplit).
      rewrite Hsplit, join_cons, <- Hsplit.
      rewrite IH by (rewrite string_length_append in Hlen; lia).
      by rewrite append_nil, append_cons.
    + rewrite IH by lia.
      by rewrite string_append_assoc, append_cons, append_nil.
Qed.

Lemma join_split sep s : sep ≠ EmptyString → join sep (split sep s) = s.
Proof.
  intros Hsep. unfold split.
  by rewrite (join_split_from sep Hsep (String.length s) s EmptyString).
Qed.

(** X19: splitting a text on a non-empty separator and joining the parts
    with it gives the text back, so the menu reply carries the configured
    [MENU_CATEGORIES] text, or its default, letter for letter. *)
Theorem menu_categories_round_trip :
  (∀ sep s, sep ≠ EmptyString → join sep (split sep s) = s)
  ∧ (∀ lower env user_message conversation_history,
        primary_intent (analyze_intent lower user_message) = menu_inquiry →
        generate_response lower (agent_restaurant_info env) user_message
          conversation_history (Some (analyze_intent lower user_message))
        = "We offer "
            ++ dict_get env "MENU_CATEGORIES"
                        "Appetizers, Main Courses, Desserts, Beverages"
            ++ ". For more details, please speak with our staff.").
Proof.
  split; [apply join_split|].
  intros lower env user_message conversation_history Hprimary.
  unfold generate_response. rewrite Hprimary.
  cbn [menu_categories agent_restaurant_info]. by rewrite join_split.
Qed.

Lemma menu_categories_round_trip_witness :
  generate_response ascii_lower
    (agent_restaurant_info {[ "MENU_CATEGORIES" := "Pizza, Pasta,Salads" ]})
    "What's on the menu?" []
    (Some (analyze_intent ascii_lower "What's on the menu?"))
  = "We offer Pizza, Pasta,Salads. For more details, please speak with our staff.".
Proof.
  refine (proj2 menu_categories_round_trip ascii_lower
            {[ "MENU_CATEGORIES" := "Pizza, Pasta,Salads" ]}
            "What's on the menu?" [] _).
  vm_compute. reflexivity.
Defined.

(** X20: the two copies of the restaurant facts, the agent's and the
    application's, agree on hours, menu categories, delivery policy and
    phone in every environment, and on the name and on the address exactly
    when the variable is set: with [RESTAURANT_NAME] unset the greeting of
    the call and the greeting of the agent name different restaurants. *)
Theorem restaurant_info_copies env :
  hours (agent_restaurant_info env) = hours (app_restaurant_info env)
  ∧ menu_categories (agent_restaurant_info env)
    = menu_categories (app_restaurant_info env)
  ∧ delivery_policy (agent_restaurant_info env)
    = delivery_policy (app_restaurant_info env)
  ∧ phone (agent_restaurant_info env) = phone (app_restaurant_info env)
  ∧ (name (agent_restaurant_info env) = name (app_restaurant_info env)
     ↔ is_Some (env !! "RESTAURANT_NAME"))
  ∧ (address (agent_restaurant_info env) = address (app_restaurant_info env)
     ↔ is_Some (env !! "RESTAURANT_ADDRESS")).
Proof.
  repeat split; try done; simpl; unfold dict_get.
  - intros Hname. by destruct (env !! "RESTAURANT_NAME").
  - by intros [v ->].
  - intros Haddress. by destruct (env !! "RESTAURANT_ADDRESS").
  - by intros [v ->].
Qed.

(** ** When the handlers fail *)

(** X21: for a speech request whose form has been read into string
    fields, that is for the statements of the speech handler that follow
    [form_data = await request.form()].  When the recognized text is
    non-empty and [float] raises on the confidence field, the handler
    leaves with that exception; the session that [get_session] registered
    for the call stays in the registry, and no session changes.  When the
    text is empty the confidence field is not converted, so a malformed
    one does no harm and the caller is asked to repeat.  When [float]
    returns, the handler answers with TwiML whatever the agent raises. *)
Theorem speech_webhook_failures ai_agent py_float twilio_phone RESTAURANT_INFO
    form_data (sessions : gmap string CallSession.t) :
  let call_sid := dict_get form_data "CallSid" EmptyString in
  let speech_result := dict_get form_data "SpeechResult" EmptyString in
  let confidence := dict_get form_data "Confidence" "0.0" in
  let outcome :=
    handle_twilio_speech_webhook ai_agent py_float twilio_phone
      RESTAURANT_INFO form_data sessions in
  (∀ e, speech_result ≠ EmptyString → py_float confidence = Raise e →
     outcome.1 = Raise e
     ∧ outcome.2 = <[call_sid := session_of sessions call_sid]> sessions
     ∧ session_of outcome.2 call_sid = session_of sessions call_sid
     ∧ (∀ other, other ≠ call_sid → outcome.2 !! other = sessions !! other))
  ∧ (speech_result = EmptyString →
     outcome.1
     = Ok (XmlResponse
             [Say "I'm sorry, I couldn't hear that clearly. Could you please repeat?";
              Gather "/api/webhook/twilio/speech"]))
  ∧ (∀ c, py_float confidence = Ok c →
     ∃ twiml, outcome.1 = Ok (XmlResponse twiml)).
Proof.
  intros call_sid speech_result confidence outcome. split; [|split].
  - intros e Htext Hconf. unfold outcome.
    rewrite (speech_malformed_confidence ai_agent py_float twilio_phone
               RESTAURANT_INFO form_data sessions e Htext Hconf).
    fold call_sid. cbn [fst snd]. rewrite session_of_insert.
    repeat split. intros other Hne. by rewrite lookup_insert_ne.
  - intros Hempty. unfold outcome.
    by rewrite (speech_unclear ai_agent py_float twilio_phone RESTAURANT_INFO
                  form_data sessions (or_introl Hempty)).
  - intros c Hconf.
    apply (speech_webhook_responds ai_agent py_float twilio_phone
             RESTAURANT_INFO form_data sessions).
    right. by exists c.
Qed.

Lemma speech_webhook_failures_witness :
  (handle_twilio_speech_webhook (agent_without_generation ascii_lower)
     decimal_float None sample_info (speech_form "CA1" "hello" "abc") ∅).1
  = Raise (ValueError "could not convert string to float: 'abc'").
Proof.
  refine (proj1 (proj1 (speech_webhook_failures
                          (agent_without_generation ascii_lower) decimal_float
                          None sample_info (speech_form "CA1" "hello" "abc") ∅)
                   (ValueError "could not convert string to float: 'abc'")
                   _ _)).
  - vm_compute. discriminate.
  - vm_compute. reflexivity.
Defined.

(** ** The voice webhook *)

(** X22: a call-start request records the caller's number and touches
    nothing else of the session: history, flag and summary stay, so a
    call-start arriving in the middle of a call does not reset it, and
    delivering the same call-start again leaves the registry as it is. *)
Theorem voice_webhook_effect twilio_phone RESTAURANT_INFO form_data
    (sessions : gmap string CallSession.t) :
  let call_sid := dict_get form_data "CallSid" EmptyString in
  let before := session_of sessions call_sid in
  let outcome :=
    handle_twilio_voice_webhook twilio_phone RESTAURANT_INFO form_data
      sessions in
  outcome.1
  = Ok (XmlResponse (create_greeting_response (name RESTAURANT_INFO)))
  ∧ (∃ session,
        outcome.2 !! call_sid = Some session
        ∧ CallSession.caller_info session !! "phone"
          = Some (dict_get form_data "From" EmptyString)
        ∧ CallSession.conversation_history session
          = CallSession.conversation_history before
        ∧ CallSession.escalation_needed session
          = CallSession.escalation_needed before
        ∧ CallSession.call_summary session = CallSession.call_summary before)
  ∧ handle_twilio_voice_webhook twilio_phone RESTAURANT_INFO form_data
      outcome.2 = outcome.
Proof.
  intros call_sid before outcome.
  assert (outcome
          = (Ok (XmlResponse (create_greeting_response (name RESTAURANT_INFO))),
             <[call_sid :=
                 CallSession.set_caller_info "phone"
                   (dict_get form_data "From" EmptyString) before]> sessions))
    as Houtcome.
  { unfold outcome, handle_twilio_voice_webhook, voice_webhook_body.
    fold call_sid. rewrite get_session_spec, twiml_greeting, insert_insert_eq.
    done. }
  rewrite Houtcome. simpl. split; [done|]. split.
  - eexists. split; [apply lookup_insert_eq|]. simpl.
    by rewrite lookup_insert_eq.
  - unfold handle_twilio_voice_webhook, voice_webhook_body. fold call_sid.
    rewrite get_session_spec, twiml_greeting, insert_insert_eq.
    rewrite session_of_insert, insert_insert_eq.
    unfold CallSession.set_caller_info. simpl.
    by rewrite insert_insert_eq.
Qed.

(** ** The speech services *)

(** [text_to_speech] answers [None] for every text, whatever the
    services do: it fails on the unbound local [os] before any request is
    sent or any file is created. *)
Lemma text_to_speech_always_none services text :
  text_to_speech services text = (None, []).
Proof. reflexivity. Qed.

(** X23: [speech_to_text] returns a non-empty text only when the client
    is set, the download answered 200 and the file, the transcription and
    the removal of the file all succeeded, and then it is the transcript.
    The temporary file is removed whenever it was written and
    [os.unlink] does not fail, also when the transcription raises; when
    writing it fails, the file stays behind. *)
Theorem speech_to_text_cleanup services openai_client audio_url :
  let outcome := speech_to_text services openai_client audio_url in
  (outcome.1 ≠ EmptyString →
   ∃ content temp_filename,
     openai_client = true
     ∧ requests_get services audio_url = Ok (200, content)
     ∧ temp_file services ".wav" = Ok temp_filename
     ∧ file_write services temp_filename content = Ok tt
     ∧ transcribe services temp_filename = Ok outcome.1
     ∧ os_unlink services temp_filename = Ok tt
     ∧ outcome.2
       = [HttpRequest audio_url; FileCreated temp_filename;
          FileRemoved temp_filename])
  ∧ (∀ temp_filename content,
        FileCreated temp_filename ∈ outcome.2 →
        requests_get services audio_url = Ok (200, content) →
        (file_write services temp_filename content = Ok tt →
         os_unlink services temp_filename = Ok tt →
         FileRemoved temp_filename ∈ outcome.2)
        ∧ ((∃ e, file_write services temp_filename content = Raise e) →
           FileRemoved temp_filename ∉ outcome.2)).
Proof.
  intros outcome. unfold outcome, speech_to_text.
  destruct openai_client; simpl;
    [|split; [done | intros ? ? Hin; by apply elem_of_nil in Hin]].
  destruct (requests_get services audio_url) as [[status_code content]|e];
    simpl;
    [|split; [done | intros ? ? Hin; revert Hin; not_elem_of_literal]].
  destruct (Nat.eqb_spec status_code 200) as [->|Hstatus]; simpl;
    [|split; [done | intros ? ? Hin; revert Hin; not_elem_of_literal]].
  destruct (temp_file services ".wav") as [temp_filename|e]; simpl;
    [|split; [done | intros ? ? Hin; revert Hin; not_elem_of_literal]].
  destruct (file_write services temp_filename content) as [[]|e] eqn:Hwrite;
    simpl.
  - destruct (os_unlink services temp_filename) as [[]|e'] eqn:Hunlink;
      simpl.
    + split.
      * intros Htext.
        destruct (transcribe services temp_filename) as [text|e'']
          eqn:Htranscript; [|done].
        by exists content, temp_filename.
      * intros name content' Hin [= <-].
        assert (name = temp_filename) as ->.
        { revert Hin. rewrite !elem_of_cons, elem_of_nil.
          intros [?|[[= ->]|[?|[]]]]; done. }
        split; [intros _ _; elem_of_literal|].
        intros [e'' He'']. congruence.
    + split; [done|].
      intros name content' Hin [= <-].
      assert (name = temp_filename) as ->.
      { revert Hin. rewrite !elem_of_cons, elem_of_nil.
        intros [?|[[= ->]|[]]]; done. }
      split; [congruence|]. intros _. not_elem_of_literal.
  - split; [done|].
    intros name content' Hin [= <-].
    assert (name = temp_filename) as ->.
    { revert Hin. rewrite !elem_of_cons, elem_of_nil.
      intros [?|[[= ->]|[]]]; done. }
    split; [congruence|]. intros _. not_elem_of_literal.
Qed.

Lemma speech_to_text_cleanup_witness :
  FileRemoved "/tmp/tmp0.wav"
  ∈ (speech_to_text services_without_transcription true
       "https://example.com/audio.wav").2.
Proof.
  refine (proj1 (proj2 (speech_to_text_cleanup services_without_transcription
                          true "https://example.com/audio.wav")
                   "/tmp/tmp0.wav" "audio" _ _) _ _).
  - vm_compute. elem_of_literal.
  - reflexivity.
  - reflexivity.
  - reflexivity.
Defined.

(** ** What is said and what is recorded *)

(** X24: on a usable speech result the reply of [generate_response] is
    always recorded as the last turn of the history.  When the session is
    not escalated it is also what the caller hears, followed by a new
    gather for the same call.  When the session is escalated the caller
    hears the two fixed transfer sentences and the dial instead: the
    recorded reply is heard only if it is literally one of those two
    sentences, as the reply to a [contact_staff] utterance is. *)
Theorem reply_spoken_and_recorded lower restaurant_info py_float twilio_phone
    RESTAURANT_INFO form_data (sessions : gmap string CallSession.t) c :
  let call_sid := dict_get form_data "CallSid" EmptyString in
  let speech_result := dict_get form_data "SpeechResult" EmptyString in
  let confidence := dict_get form_data "Confidence" "0.0" in
  let reply :=
    generate_response lower restaurant_info speech_result
      (CallSession.conversation_history (session_of sessions call_sid))
      (Some (analyze_intent lower speech_result)) in
  let outcome :=
    handle_twilio_speech_webhook (RestaurantAIAgent lower restaurant_info)
      py_float twilio_phone RESTAURANT_INFO form_data sessions in
  speech_result ≠ EmptyString →
  py_float confidence = Ok c →
  float_lt c half = false →
  ∃ session,
    outcome.2 !! call_sid = Some session
    ∧ last (CallSession.conversation_history session)
      = Some {| role := "assistant"; content := reply |}
    ∧ (CallSession.escalation_needed session = false →
       outcome.1
       = Ok (XmlResponse
               [Say reply;
                Gather ("/api/webhook/twilio/speech?call_sid=" ++ call_sid)]))
    ∧ (CallSession.escalation_needed session = true →
       outcome.1
       = Ok (XmlResponse
               [Say "I'll connect you with our staff who can better assist you.";
                Say "Transferring you to our staff now.";
                Dial twilio_phone (phone RESTAURANT_INFO)]))
    ∧ (CallSession.escalation_needed session = true →
       ∀ twiml, outcome.1 = Ok (XmlResponse twiml) →
         (Say reply ∈ twiml
          ↔ reply = "I'll connect you with our staff who can better assist you."
            ∨ reply = "Transferring you to our staff now.")
         ∧ (primary_intent (analyze_intent lower speech_result) = contact_staff →
            Say reply ∈ twiml)).
Proof.
  intros call_sid speech_result confidence reply outcome Htext Hconf Hlt.
  destruct (speech_usable (RestaurantAIAgent lower restaurant_info) py_float
              twilio_phone RESTAURANT_INFO form_data sessions c Htext Hconf Hlt)
    as (ai_response & Hreply & Hhandle).
  fold call_sid speech_result in Hreply, Hhandle.
  rewrite get_ai_response_agent in Hreply, Hhandle.
  fold reply in Hreply, Hhandle. simpl in Hreply. injection Hreply as <-.
  unfold outcome. rewrite Hhandle. clear Hhandle.
  set (turn := (if escalation_needed (analyze_intent lower speech_result)
                then _ else _) : CallSession.t).
  assert (last (CallSession.conversation_history turn)
          = Some {| role := "assistant"; content := reply |}) as Hlast.
  { unfold turn.
    destruct (escalation_needed (analyze_intent lower speech_result));
      apply last_snoc. }
  cbn [snd].
  destruct (CallSession.escalation_needed turn) eqn:Hflag.
  - eexists. split; [apply lookup_insert_eq|]. split; [exact Hlast|].
    split.
    { cbn [CallSession.set_call_summary CallSession.escalation_needed].
      congruence. }
    split; [done|].
    intros _ twiml [= <-]. unfold create_escalation_response. split.
    + split.
      * intros Hin.
        apply elem_of_cons in Hin as [[= ->]|Hin]; [by left|].
        apply elem_of_cons in Hin as [[= ->]|Hin]; [by right|].
        apply elem_of_cons in Hin as [[=]|Hin].
        by apply elem_of_nil in Hin.
      * intros [-> | ->]; elem_of_literal.
    + intros Hprimary. unfold reply, generate_response.
      rewrite Hprimary. elem_of_literal.
  - exists turn. split; [apply lookup_insert_eq|]. split; [exact Hlast|].
    split; [done|]. split; congruence.
Qed.

Lemma reply_spoken_and_recorded_witness :
  ∃ session,
    (handle_twilio_speech_webhook (RestaurantAIAgent ascii_lower sample_info)
       decimal_float None sample_info
       (speech_form "CA1" "Hi, I want to order a pizza" "0.9") ∅).2 !! "CA1"
    = Some session
    ∧ last (CallSession.conversation_history session)
      = Some {| role := "assistant";
                content := "Hello! Thank you for calling Restaurant Name. How can I assist you today?" |}
    ∧ CallSession.escalation_needed session = true.
Proof.
  destruct (reply_spoken_and_recorded ascii_lower sample_info decimal_float
              None sample_info
              (speech_form "CA1" "Hi, I want to order a pizza" "0.9") ∅
              (Ffinite (9 # 10)))
    as (session & Hs & Hlast & _ & _);
    [vm_compute; discriminate | vm_compute; reflexivity
    | vm_compute; reflexivity |].
  exists session. split; [exact Hs|]. split; [exact Hlast|].
  vm_compute in Hs. injection Hs as <-. reflexivity.
Defined.
